(** * trashdays.py: the upcoming trash day and the recycling flag

    A shallow embedding of [src/trashdays.py] (class [TrashDays]) and of the
    parts of [datetime], [pytz], [dateutil.relativedelta] and
    [dateutil.rrule] that the class calls, followed by the properties of the
    schedule rules.

    Conventions of the model.
    - Every datetime the program handles is a midnight: [TODAY] is truncated
      with [replace(hour=0, ...)], [RECYCLING_EPOCH] is built without a time
      and every delta is a whole number of days.  A datetime is therefore its
      proleptic Gregorian ordinal ([datetime.toordinal()], 0001-01-01 is 1)
      together with its [tzinfo].
    - [pytz] attaches one of the fixed-offset instances of US/Central to a
      datetime ([localize], [now(TZ)]); datetime arithmetic keeps that
      instance.  Wall-clock fields ([month], [day], [weekday()]) ignore it,
      comparisons of aware datetimes (rrule's [until], the [in] test) are
      made on the UTC instant.
    - The range [MINYEAR..MAXYEAR] of [datetime] is not modelled: ordinals
      range over [Z].
    - The module-level global [TODAY] is the first argument of every method
      that reads it.
    - Line 72 of the source ends in [or] and continues on line 73; the two
      lines are read as the one disjunction they spell. *)

From Stdlib Require Import ZArith Bool List Sorted Lia.
From Stdlib Require Ascii String DecimalString.
Import ListNotations.

Local Open Scope Z_scope.

(** ** Calendar arithmetic of [datetime] *)

Module Calendar.

Definition _DI400Y : Z := 146097.
Definition _DI100Y : Z := 36524.
Definition _DI4Y : Z := 1461.

(** [_DAYS_IN_MONTH] and [_DAYS_BEFORE_MONTH], indexed from 1 (index 0
    holds the placeholder -1). *)
Definition _DAYS_IN_MONTH (month : Z) : Z :=
  nth (Z.to_nat month) [-1; 31; 28; 31; 30; 31; 30; 31; 31; 30; 31; 30; 31] (-1).

Definition _DAYS_BEFORE_MONTH (month : Z) : Z :=
  nth (Z.to_nat month) [-1; 0; 31; 59; 90; 120; 151; 181; 212; 243; 273; 304; 334] (-1).

Definition _is_leap (year : Z) : bool :=
  (year mod 4 =? 0) && (negb (year mod 100 =? 0) || (year mod 400 =? 0)).

Definition _days_before_year (year : Z) : Z :=
  let y := year - 1 in y * 365 + y / 4 - y / 100 + y / 400.

Definition _days_before_month (year month : Z) : Z :=
  _DAYS_BEFORE_MONTH month + (if (2 <? month) && _is_leap year then 1 else 0).

(** [_days_in_month(year, month)]. *)
Definition _days_in_month (year month : Z) : Z :=
  if (month =? 2) && _is_leap year then 29 else _DAYS_IN_MONTH month.

(** [_ymd2ord(year, month, day)]. *)
Definition _ymd2ord (year month day : Z) : Z :=
  _days_before_year year + _days_before_month year month + day.

(** The tail of [_ord2ymd] once the 400-year cycle has been split off:
    [n] is the 0-based day inside the cycle that starts in [year]. *)
Definition _ord2ymd_cycle (year n : Z) : Z * Z * Z :=
  let n100 := n / _DI100Y in
  let n := n mod _DI100Y in
  let n4 := n / _DI4Y in
  let n := n mod _DI4Y in
  let n1 := n / 365 in
  let n := n mod 365 in
  let year := year + n100 * 100 + n4 * 4 + n1 in
  if (n1 =? 4) || (n100 =? 4) then (year - 1, 12, 31)
  else
    let leapyear := (n1 =? 3) && (negb (n4 =? 24) || (n100 =? 3)) in
    let month := Z.shiftr (n + 50) 5 in
    let preceding :=
      _DAYS_BEFORE_MONTH month + (if (2 <? month) && leapyear then 1 else 0) in
    if n <? preceding then
      let month := month - 1 in
      let preceding :=
        preceding
        - (_DAYS_IN_MONTH month + (if (month =? 2) && leapyear then 1 else 0)) in
      (year, month, n - preceding + 1)
    else (year, month, n - preceding + 1).

(** [_ord2ymd(n)]: ordinal to (year, month, day). *)
Definition _ord2ymd (n : Z) : Z * Z * Z :=
  let n := n - 1 in
  _ord2ymd_cycle ((n / _DI400Y) * 400 + 1) (n mod _DI400Y).

End Calendar.

(** ** Aware datetimes at midnight *)

(** The two fixed-offset [tzinfo] instances of US/Central that [pytz] hands
    out for present-day dates. *)
Inductive tzinfo : Type :=
| CST   (* UTC-6:00, standard time *)
| CDT.  (* UTC-5:00, daylight time *)

Record datetime : Type := mkDatetime {
  toordinal : Z;
  tz : tzinfo
}.

(** [dt.utcoffset()], in minutes. *)
Definition utcoffset (dt : datetime) : Z :=
  match tz dt with
  | CST => -360
  | CDT => -300
  end.

(** Minutes from 0001-01-01T00:00 UTC to the instant [dt] denotes. *)
Definition utc_minutes (dt : datetime) : Z :=
  (toordinal dt - 1) * 1440 - utcoffset dt.

Definition year (dt : datetime) : Z := fst (fst (Calendar._ord2ymd (toordinal dt))).
Definition month (dt : datetime) : Z := snd (fst (Calendar._ord2ymd (toordinal dt))).
Definition day (dt : datetime) : Z := snd (Calendar._ord2ymd (toordinal dt)).

(** [dt.weekday()]: Monday is 0. *)
Definition weekday (dt : datetime) : Z := (toordinal dt + 6) mod 7.

(** [dt + datetime.timedelta(days=n)]: wall-clock arithmetic, same [tzinfo]. *)
Definition add_days (dt : datetime) (n : Z) : datetime :=
  mkDatetime (toordinal dt + n) (tz dt).

(** [a == b], [a > b] and [a <= b] on aware datetimes compare instants. *)
Definition datetime_eqb (a b : datetime) : bool := utc_minutes a =? utc_minutes b.
Definition datetime_gtb (a b : datetime) : bool := utc_minutes b <? utc_minutes a.
Definition datetime_leb (a b : datetime) : bool := utc_minutes a <=? utc_minutes b.

(** [(a - b).days]: the timedelta between two aware datetimes, normalised so
    that its [days] field is the floor of the difference. *)
Definition sub_days (a b : datetime) : Z := (utc_minutes a - utc_minutes b) / 1440.

(** [TZ.localize(datetime.datetime(y, m, d))] and the value [now(TZ)]
    truncated to midnight, given the offset in force. *)
Definition localize (z : tzinfo) (y m d : Z) : datetime :=
  mkDatetime (Calendar._ymd2ord y m d) z.

(** ** [dateutil.relativedelta] *)

Module rel.

(** [rel.TU]: the weekday object for Tuesday, with [n] left at its default. *)
Definition TU : Z := 1.

(** A [relativedelta(days=..., weekday=...)]; every other field keeps its
    neutral default. *)
Record relativedelta : Type := mkRelativedelta {
  rd_days : Z;
  rd_weekday : option Z
}.

(** [dt + delta] ([relativedelta.__radd__]): add the days, then move
    forward to the requested weekday, staying put when already on it. *)
Definition radd (dt : datetime) (delta : relativedelta) : datetime :=
  let ret := add_days dt (rd_days delta) in
  match rd_weekday delta with
  | None => ret
  | Some wd =>
      let jumpdays := (7 - weekday ret + wd) mod 7 in
      add_days ret jumpdays
  end.

(** [dt - delta] ([relativedelta.__rsub__]): add the negated delta, which
    keeps the weekday field. *)
Definition rsub (dt : datetime) (delta : relativedelta) : datetime :=
  radd dt (mkRelativedelta (- rd_days delta) (rd_weekday delta)).

End rel.

(** ** [dateutil.rrule] *)

Module rrule.

(** The iteration of [rrule(dtstart, until, freq=WEEKLY, interval)]: with
    no [byweekday] the rule keeps the weekday of [dtstart], so the
    candidates are [dtstart], [dtstart + 7*interval days], ...; the
    generator stops at the first candidate after [until].  The recursion
    is on [fuel]. *)
Fixpoint iter (fuel : nat) (cur until : datetime) (interval : Z) : list datetime :=
  match fuel with
  | O => []
  | S fuel' =>
      if datetime_gtb cur until then []
      else cur :: iter fuel' (add_days cur (7 * interval)) until interval
  end.

(** Fuel for [iter]: one more than the number of periods that fit between
    [dtstart] and [until], plus the step on which the stop test fires. *)
Definition fuel_for (dtstart until : datetime) (interval : Z) : nat :=
  S (S (Z.to_nat ((utc_minutes until - utc_minutes dtstart) / (1440 * 7 * interval)))).

Definition weekly (dtstart until : datetime) (interval : Z) : list datetime :=
  iter (fuel_for dtstart until interval) dtstart until interval.

End rrule.

(** ** The program: [src/trashdays.py] *)

(** [TZ.localize(datetime.datetime(2021, 3, 16))]: 16 March 2021 lies in
    daylight time. *)
Definition RECYCLING_EPOCH : datetime := localize CDT 2021 3 16.

Definition TUESDAY : Z := 1.
Definition WEDNESDAY : Z := 2.

(** The entries of the dictionary [_render_params] builds that are computed
    from dates; the two [strftime] strings are left out. *)
Record params : Type := mkParams {
  countdown : Z;
  recycling : bool
}.

Definition _is_observed_holiday (dt : datetime) : bool :=
  ((month dt =? 12) && (day dt =? 25)) || ((month dt =? 1) && (day dt =? 1)).

Definition _holiday_adjust (dt : datetime) : datetime :=
  if _is_observed_holiday dt then add_days dt 1 else dt.

Section TrashDays.

(** The module-level global: now, in US/Central, truncated to midnight. *)
Variable TODAY : datetime.

Definition _generate_recycling_days : list datetime :=
  map (fun x => _holiday_adjust x)
      (rrule.weekly RECYCLING_EPOCH (add_days TODAY 14) 2).

(** The final [return] is reached from the Wednesday branch whose inner
    test fails and from every weekday after Wednesday or before Tuesday. *)
Definition _determine_upcoming_trash_day : datetime :=
  let otherwise :=
    _holiday_adjust (rel.radd TODAY (rel.mkRelativedelta 1 (Some rel.TU))) in
  if weekday TODAY =? TUESDAY then
    _holiday_adjust TODAY
  else if weekday TODAY =? WEDNESDAY then
    let yesterday := rel.rsub TODAY (rel.mkRelativedelta 1 None) in
    if _is_observed_holiday yesterday then TODAY
    else otherwise
  else otherwise.

(** [trash_day in self._generate_recycling_days()] walks the generator and
    compares with [==]. *)
Definition _render_params (trash_day : datetime) : params :=
  {| countdown := sub_days trash_day TODAY;
     recycling := existsb (fun x => datetime_eqb trash_day x)
                          _generate_recycling_days |}.

(** [run], up to the two writes. *)
Definition run : params :=
  let upcoming_trash_day := _determine_upcoming_trash_day in
  _render_params upcoming_trash_day.

End TrashDays.

(** ** The readable date: [strftime("%A, %B %d %Y")] *)

(** [strftime] in the C locale, which the program never changes: the full
    English names of the weekday and of the month, the day of the month on
    two digits, the year in decimal. *)
Module Strftime.

Import String.
Local Open Scope string_scope.

(** [%A], indexed by [weekday()]. *)
Definition day_name (wd : Z) : string :=
  nth (Z.to_nat wd)
      ["Monday"; "Tuesday"; "Wednesday"; "Thursday"; "Friday"; "Saturday"; "Sunday"]
      "".

(** [%B], indexed by [month]. *)
Definition month_name (m : Z) : string :=
  nth (Z.to_nat m)
      [""; "January"; "February"; "March"; "April"; "May"; "June"; "July";
       "August"; "September"; "October"; "November"; "December"]
      "".

Definition digit (n : Z) : string :=
  String (Ascii.ascii_of_nat (48 + Z.to_nat n)) EmptyString.

(** [%d]. *)
Definition two_digits (n : Z) : string := digit (n / 10) ++ digit (n mod 10).

(** [%Y]. *)
Definition decimal (n : Z) : string :=
  DecimalString.NilZero.string_of_int (Z.to_int n).

Definition format_A_B_d_Y (dt : datetime) : string :=
  day_name (weekday dt) ++ ", " ++ month_name (month dt) ++ " "
  ++ two_digits (day dt) ++ " " ++ decimal (year dt).

End Strftime.

(** The entry ["trash_day_readable"] of the dictionary [_render_params]
    builds. *)
Definition trash_day_readable (trash_day : datetime) : String.string :=
  Strftime.format_A_B_d_Y trash_day.

(** * Definitions used to state and prove the properties *)

(** The date [TODAY + relativedelta(days=1, weekday=TU)]. *)
Definition next_tuesday (dt : datetime) : datetime :=
  rel.radd dt (rel.mkRelativedelta 1 (Some rel.TU)).

(** [t] is the first Tuesday strictly after [dt]: a Tuesday after [dt] with
    no Tuesday in between, on the same [tzinfo]. *)
Definition first_tuesday_after (dt t : datetime) : Prop :=
  weekday t = TUESDAY /\
  toordinal dt < toordinal t /\
  tz t = tz dt /\
  forall x : datetime,
    toordinal dt < toordinal x < toordinal t -> weekday x <> TUESDAY.

(** The [k]-th candidate of a rule of period two weeks. *)
Definition biweekly (dtstart : datetime) (k : nat) : datetime :=
  add_days dtstart (14 * Z.of_nat k).

(** How many candidates of a biweekly rule are not after [until]. *)
Definition biweekly_count (dtstart until : datetime) : nat :=
  Z.to_nat ((utc_minutes until - utc_minutes dtstart) / 20160 + 1).

(** The unadjusted candidates [_generate_recycling_days] maps over. *)
Definition recycling_candidates (TODAY : datetime) : list datetime :=
  rrule.weekly RECYCLING_EPOCH (add_days TODAY 14) 2.

(** The number of dates [RECYCLING_EPOCH + 14 k], [k >= 0], whose calendar
    date is at most that of [TODAY + 14 days]. *)
Definition recycling_count (TODAY : datetime) : nat :=
  Z.to_nat ((toordinal TODAY + 14 - toordinal RECYCLING_EPOCH) / 14 + 1).

(** A pickup day: a Tuesday that is not an observed holiday, or the
    Wednesday after a Tuesday that is one. *)
Definition is_pickup_day (x : datetime) : Prop :=
  (weekday x = TUESDAY /\ _is_observed_holiday x = false) \/
  (weekday x = WEDNESDAY /\ _is_observed_holiday (add_days x (-1)) = true).

(** The Tuesday a trash day stands for: the day itself, or the day before a
    makeup Wednesday. *)
Definition pickup_tuesday (r : datetime) : datetime :=
  if weekday r =? TUESDAY then r else add_days r (-1).

(** Calendar order on datetimes. *)
Definition before (a b : datetime) : Prop := toordinal a < toordinal b.

(** ** The counters of [_ord2ymd] *)

Module YearCounters.

Import Calendar.

(** The four counters [_ord2ymd] splits a day of the 400-year cycle into:
    whole centuries, whole 4-year cycles, whole years, day of the year. *)
Definition c_n100 (r : Z) : Z := r / _DI100Y.
Definition c_n4 (r : Z) : Z := (r mod _DI100Y) / _DI4Y.
Definition c_n1 (r : Z) : Z := ((r mod _DI100Y) mod _DI4Y) / 365.
Definition c_n (r : Z) : Z := ((r mod _DI100Y) mod _DI4Y) mod 365.

Definition c_leap (r : Z) : bool :=
  (c_n1 r =? 3) && (negb (c_n4 r =? 24) || (c_n100 r =? 3)).

(** Month and day of the 0-based day [n] of a year: the last step of
    [_ord2ymd], the estimate [(n + 50) >> 5] and its correction. *)
Definition month_day (leapyear : bool) (n : Z) : Z * Z :=
  let month := Z.shiftr (n + 50) 5 in
  let preceding :=
    _DAYS_BEFORE_MONTH month + (if (2 <? month) && leapyear then 1 else 0) in
  if n <? preceding then
    (month - 1,
     n - (preceding
          - (_DAYS_IN_MONTH (month - 1)
             + (if (month - 1 =? 2) && leapyear then 1 else 0))) + 1)
  else (month, n - preceding + 1).

(** The holiday test on a (month, day) pair. *)
Definition holiday_md (md : Z * Z) : bool :=
  ((fst md =? 12) && (snd md =? 25)) || ((fst md =? 1) && (snd md =? 1)).

(** On every day of the year that is a holiday, the next day of the year
    exists and has the same month and the next day number; checked over
    the 365 values of [c_n] and both kinds of year. *)
Definition holiday_succ_ok (leapyear : bool) (k : nat) : bool :=
  let n := Z.of_nat k in
  implb (holiday_md (month_day leapyear n))
        ((n + 1 <? 365)
         && (fst (month_day leapyear (n + 1)) =? fst (month_day leapyear n))
         && (snd (month_day leapyear (n + 1)) =? snd (month_day leapyear n) + 1)).

(** The 0-based day of the year of month [m], day [d]. *)
Definition yday (leapyear : bool) (m d : Z) : Z :=
  _DAYS_BEFORE_MONTH m + (if (2 <? m) && leapyear then 1 else 0) + d - 1.

Definition month_length (leapyear : bool) (m : Z) : Z :=
  if (m =? 2) && leapyear then 29 else _DAYS_IN_MONTH m.

(** [month_day] inverts [yday] on every day of the year but the 366th,
    which is 31 December of a leap year. *)
Definition yday_ok (leapyear : bool) (mi di : nat) : bool :=
  let m := Z.of_nat mi in
  let d := Z.of_nat di in
  let k := yday leapyear m d in
  implb (d <=? month_length leapyear m)
        ((0 <=? k) &&
         (if k <? 365
          then (fst (month_day leapyear k) =? m) && (snd (month_day leapyear k) =? d)
          else leapyear && (k =? 365) && (m =? 12) && (d =? 31))).

End YearCounters.

(** * Properties *)

(** ** Weekdays and day arithmetic *)

Ltac euclid := Z.div_mod_to_equations; lia.

Lemma datetime_eq (a b : datetime) :
  toordinal a = toordinal b -> tz a = tz b -> a = b.
Proof. destruct a, b; simpl; intros -> ->; reflexivity. Qed.

Lemma add_days_0 (dt : datetime) : add_days dt 0 = dt.
Proof. apply datetime_eq; simpl; [lia | reflexivity]. Qed.

Lemma add_days_add_days (dt : datetime) (a b : Z) :
  add_days (add_days dt a) b = add_days dt (a + b).
Proof. apply datetime_eq; simpl; [lia | reflexivity]. Qed.

Lemma weekday_range (dt : datetime) : 0 <= weekday dt < 7.
Proof. unfold weekday. euclid. Qed.

Lemma weekday_add_days (dt : datetime) (n : Z) :
  weekday (add_days dt n) = (weekday dt + n) mod 7.
Proof. unfold weekday, add_days; simpl. euclid. Qed.

Lemma weekday_succ_tuesday (dt : datetime) :
  weekday dt = TUESDAY -> weekday (add_days dt 1) = WEDNESDAY.
Proof. rewrite weekday_add_days. unfold TUESDAY, WEDNESDAY. intros ->. reflexivity. Qed.

Lemma next_tuesday_ordinal (dt : datetime) :
  toordinal (next_tuesday dt) =
  toordinal dt + (if weekday dt <? TUESDAY then 1 else 8 - weekday dt).
Proof.
  unfold next_tuesday, rel.radd, rel.TU, TUESDAY.
  cbn [rel.rd_days rel.rd_weekday add_days toordinal tz].
  rewrite weekday_add_days.
  pose proof (weekday_range dt) as Hr.
  destruct (Z.ltb_spec (weekday dt) 1); euclid.
Qed.

Lemma next_tuesday_first (dt : datetime) : first_tuesday_after dt (next_tuesday dt).
Proof.
  pose proof (next_tuesday_ordinal dt) as Ho.
  pose proof (weekday_range dt) as Hr.
  unfold first_tuesday_after, TUESDAY in *.
  repeat split.
  - unfold weekday in *. destruct (Z.ltb_spec ((toordinal dt + 6) mod 7) 1); euclid.
  - destruct (Z.ltb_spec (weekday dt) 1); lia.
  - intros x Hx. unfold weekday in *.
    destruct (Z.ltb_spec ((toordinal dt + 6) mod 7) 1); euclid.
Qed.

Lemma first_tuesday_after_unique (dt t t' : datetime) :
  first_tuesday_after dt t -> first_tuesday_after dt t' -> t = t'.
Proof.
  intros (Hw & Hlt & Hz & Hmin) (Hw' & Hlt' & Hz' & Hmin').
  apply datetime_eq; [| congruence].
  destruct (Z.lt_trichotomy (toordinal t) (toordinal t')) as [H | [H | H]].
  - exfalso. apply (Hmin' t); [lia | assumption].
  - assumption.
  - exfalso. apply (Hmin t'); [lia | assumption].
Qed.

(** ** The day after a date, inside [_ord2ymd] *)

Module CalendarFacts.

Import Calendar YearCounters.

Lemma ord2ymd_cycle_eq (y r : Z) :
  _ord2ymd_cycle y r =
  if (c_n1 r =? 4) || (c_n100 r =? 4)
  then (y + c_n100 r * 100 + c_n4 r * 4 + c_n1 r - 1, 12, 31)
  else (y + c_n100 r * 100 + c_n4 r * 4 + c_n1 r,
        fst (month_day (c_leap r) (c_n r)),
        snd (month_day (c_leap r) (c_n r))).
Proof.
  cbv beta zeta delta [_ord2ymd_cycle month_day c_leap].
  fold (c_n100 r) (c_n4 r) (c_n1 r) (c_n r).
  destruct ((c_n1 r =? 4) || (c_n100 r =? 4)); [reflexivity |].
  match goal with |- context [if ?b then (_, _, _) else _] => destruct b end;
    reflexivity.
Qed.

Lemma c_n_range (r : Z) : 0 <= c_n r < 365.
Proof. unfold c_n. apply Z.mod_pos_bound. lia. Qed.

(** Moving forward inside a year leaves the year counters alone. *)
Lemma counters_add (r k : Z) :
  0 <= r < _DI400Y -> 0 <= k ->
  c_n1 r <> 4 -> c_n100 r <> 4 -> c_n r + k < 365 ->
  r + k < _DI400Y /\
  c_n100 (r + k) = c_n100 r /\ c_n4 (r + k) = c_n4 r /\
  c_n1 (r + k) = c_n1 r /\ c_n (r + k) = c_n r + k.
Proof.
  unfold c_n100, c_n4, c_n1, c_n, _DI400Y, _DI100Y, _DI4Y.
  intros Hr Hk H1 H100 Hn. euclid.
Qed.

Lemma holiday_succ_table :
  forallb (fun b => forallb (holiday_succ_ok b) (seq 0 365)) [true; false] = true.
Proof. vm_compute. reflexivity. Qed.

Lemma month_day_holiday_succ (leapyear : bool) (n : Z) :
  0 <= n < 365 ->
  holiday_md (month_day leapyear n) = true ->
  n + 1 < 365 /\
  fst (month_day leapyear (n + 1)) = fst (month_day leapyear n) /\
  snd (month_day leapyear (n + 1)) = snd (month_day leapyear n) + 1.
Proof.
  intros Hn Hh.
  pose proof holiday_succ_table as Ht.
  rewrite forallb_forall in Ht.
  assert (Hb : In leapyear [true; false]) by (destruct leapyear; simpl; auto).
  specialize (Ht _ Hb). rewrite forallb_forall in Ht.
  specialize (Ht (Z.to_nat n)).
  assert (Hk : In (Z.to_nat n) (seq 0 365)) by (apply in_seq; lia).
  specialize (Ht Hk). unfold holiday_succ_ok in Ht.
  rewrite Z2Nat.id in Ht by lia. rewrite Hh in Ht. simpl in Ht.
  apply andb_prop in Ht as [Ht Hd]. apply andb_prop in Ht as [Hlt Hm].
  repeat split; [apply Z.ltb_lt | apply Z.eqb_eq | apply Z.eqb_eq]; assumption.
Qed.

(** The last day of a leap year: the counters run into the next year, or
    into the next century at the end of the cycle. *)
Lemma cycle_leap_end (y0 r : Z) :
  0 <= r < _DI400Y -> c_n r = 0 -> c_leap r = true ->
  r + 365 < _DI400Y /\
  _ord2ymd_cycle y0 (r + 365) =
  (y0 + c_n100 r * 100 + c_n4 r * 4 + c_n1 r, 12, 31).
Proof.
  unfold c_leap.
  rewrite andb_true_iff, orb_true_iff, negb_true_iff, Z.eqb_neq, !Z.eqb_eq.
  intros Hr Hn [H3 Hl].
  rewrite ord2ymd_cycle_eq.
  assert (H : r + 365 < _DI400Y /\
              ((c_n1 (r + 365) = 4 /\ c_n100 (r + 365) = c_n100 r /\
                c_n4 (r + 365) = c_n4 r) \/
               (c_n100 (r + 365) = 4 /\ c_n4 (r + 365) = 0 /\
                c_n1 (r + 365) = 0 /\ c_n100 r = 3 /\ c_n4 r = 24))).
  { revert Hr Hn H3 Hl.
    unfold c_n100, c_n4, c_n1, c_n, _DI400Y, _DI100Y, _DI4Y.
    intros Hr Hn H3 Hl. destruct Hl; euclid. }
  destruct H as [Hlt [(E1 & E100 & E4) | (E100 & E4 & E1 & F100 & F4)]];
    split; try assumption; rewrite E1, E100, E4.
  - rewrite Z.eqb_refl. cbn [orb]. f_equal. f_equal. lia.
  - rewrite Z.eqb_refl, orb_true_r. f_equal. f_equal. lia.
Qed.

(** The first day of year [y]: where it falls in its 400-year cycle. *)
Lemma new_year_counters (y : Z) :
  let r := _days_before_year y mod _DI400Y in
  _days_before_year y / _DI400Y * 400 + 1
  + c_n100 r * 100 + c_n4 r * 4 + c_n1 r = y /\
  c_n r = 0 /\ c_n1 r <> 4 /\ c_n100 r <> 4 /\ c_leap r = _is_leap y.
Proof.
  cbv zeta.
  unfold c_leap, _is_leap, c_n100, c_n4, c_n1, c_n, _days_before_year,
    _DI400Y, _DI100Y, _DI4Y.
  cbv zeta.
  assert (H : exists a b c g,
             y - 1 = 400 * a + 100 * b + 4 * c + g /\
             0 <= b < 4 /\ 0 <= c < 25 /\ 0 <= g < 4).
  { exists ((y - 1) / 400), ((y - 1) mod 400 / 100),
      (((y - 1) mod 400) mod 100 / 4), ((((y - 1) mod 400) mod 100) mod 4).
    euclid. }
  destruct H as (a & b & c & g & Hy & Hb & Hc & Hg).
  replace y with (400 * a + 100 * b + 4 * c + g + 1) by lia.
  replace (400 * a + 100 * b + 4 * c + g + 1 - 1)
    with (400 * a + 100 * b + 4 * c + g) by lia.
  clear Hy y.
  set (Y := 400 * a + 100 * b + 4 * c + g).
  assert (E4 : Y / 4 = 100 * a + 25 * b + c) by (subst Y; euclid).
  assert (E100 : Y / 100 = 4 * a + b) by (subst Y; euclid).
  assert (E400 : Y / 400 = a) by (subst Y; euclid).
  rewrite E4, E100, E400.
  replace (Y * 365 + (100 * a + 25 * b + c) - (4 * a + b) + a)
    with (146097 * a + (36524 * b + (1461 * c + 365 * g))) by (subst Y; lia).
  assert (Eq : (146097 * a + (36524 * b + (1461 * c + 365 * g))) / 146097 = a)
    by euclid.
  assert (Er : (146097 * a + (36524 * b + (1461 * c + 365 * g))) mod 146097
               = 36524 * b + (1461 * c + 365 * g)) by euclid.
  rewrite Eq, Er.
  assert (Eb : (36524 * b + (1461 * c + 365 * g)) / 36524 = b) by euclid.
  assert (Eb' : (36524 * b + (1461 * c + 365 * g)) mod 36524 = 1461 * c + 365 * g)
    by euclid.
  rewrite Eb, Eb'.
  assert (Ec : (1461 * c + 365 * g) / 1461 = c) by euclid.
  assert (Ec' : (1461 * c + 365 * g) mod 1461 = 365 * g) by euclid.
  rewrite Ec, Ec'.
  assert (Eg : 365 * g / 365 = g) by euclid.
  assert (Eg' : (365 * g) mod 365 = 0) by euclid.
  rewrite Eg, Eg'.
  repeat split; try (subst Y; lia).
  assert (M4 : (Y + 1) mod 4 = (g + 1) mod 4) by (subst Y; euclid).
  assert (M100 : (Y + 1) mod 100 = (4 * c + g + 1) mod 100) by (subst Y; euclid).
  assert (M400 : (Y + 1) mod 400 = (100 * b + 4 * c + g + 1) mod 400)
    by (subst Y; euclid).
  rewrite M4, M100, M400. clear - Hb Hc Hg.
  repeat match goal with
         | |- context [?x =? ?y] => destruct (Z.eqb_spec x y)
         end; simpl; try reflexivity; exfalso; euclid.
Qed.

Lemma yday_table :
  forallb (fun b =>
             forallb (fun mi => forallb (yday_ok b mi) (seq 1 31)) (seq 1 12))
          [true; false] = true.
Proof. vm_compute. reflexivity. Qed.

Lemma month_day_yday (leapyear : bool) (m d : Z) :
  1 <= m <= 12 -> 1 <= d <= month_length leapyear m ->
  0 <= yday leapyear m d /\
  (yday leapyear m d < 365 -> month_day leapyear (yday leapyear m d) = (m, d)) /\
  (365 <= yday leapyear m d ->
   leapyear = true /\ yday leapyear m d = 365 /\ m = 12 /\ d = 31).
Proof.
  intros Hm Hd.
  assert (Hd31 : d <= 31).
  { unfold month_length, _DAYS_IN_MONTH in Hd.
    destruct ((m =? 2) && leapyear); [lia |].
    assert (Hc : m = 1 \/ m = 2 \/ m = 3 \/ m = 4 \/ m = 5 \/ m = 6 \/ m = 7 \/
                 m = 8 \/ m = 9 \/ m = 10 \/ m = 11 \/ m = 12) by lia.
    repeat (destruct Hc as [-> | Hc]; [simpl in Hd; lia |]). subst m. simpl in Hd. lia. }
  pose proof yday_table as Ht.
  rewrite forallb_forall in Ht.
  assert (Hb : In leapyear [true; false]) by (destruct leapyear; simpl; auto).
  specialize (Ht _ Hb). rewrite forallb_forall in Ht.
  specialize (Ht (Z.to_nat m)). rewrite forallb_forall in Ht.
  assert (Hmi : In (Z.to_nat m) (seq 1 12)) by (apply in_seq; lia).
  assert (Hdi : In (Z.to_nat d) (seq 1 31)) by (apply in_seq; lia).
  specialize (Ht Hmi _ Hdi). unfold yday_ok in Ht.
  rewrite !Z2Nat.id in Ht by lia.
  replace (d <=? month_length leapyear m) with true in Ht
    by (symmetry; apply Z.leb_le; lia).
  cbn [implb] in Ht. apply andb_prop in Ht as [H0 Ht].
  apply Z.leb_le in H0. split; [assumption |].
  destruct (Z.ltb_spec (yday leapyear m d) 365) as [Hlt | Hge].
  - split; [| lia]. intros _.
    apply andb_prop in Ht as [Hf Hs]. apply Z.eqb_eq in Hf, Hs.
    destruct (month_day leapyear (yday leapyear m d)) as [m' d'].
    cbn [fst snd] in Hf, Hs. congruence.
  - split; [lia |]. intros _.
    apply andb_prop in Ht as [Ht H31]. apply andb_prop in Ht as [Ht H12].
    apply andb_prop in Ht as [Hl Hk].
    apply Z.eqb_eq in H31, H12, Hk. auto.
Qed.

(** [_ord2ymd] inverts [_ymd2ord] on every date of the calendar. *)
Lemma ord2ymd_ymd2ord (y m d : Z) :
  1 <= m <= 12 -> 1 <= d <= _days_in_month y m ->
  _ord2ymd (_ymd2ord y m d) = (y, m, d).
Proof.
  intros Hm Hd.
  destruct (new_year_counters y) as (Hy & Hn & H1 & H100 & Hl).
  destruct (month_day_yday (_is_leap y) m d Hm Hd) as (Hk0 & Hlt & Hge).
  unfold _ord2ymd, _ymd2ord, _days_before_month. cbv zeta.
  set (q := _days_before_year y / _DI400Y) in *.
  set (r := _days_before_year y mod _DI400Y) in *.
  assert (Hr : 0 <= r < _DI400Y) by (apply Z.mod_pos_bound; reflexivity).
  fold (yday (_is_leap y) m d) in *.
  set (k := yday (_is_leap y) m d) in *.
  replace (_days_before_year y
           + (_DAYS_BEFORE_MONTH m + (if (2 <? m) && _is_leap y then 1 else 0))
           + d - 1)
    with (_days_before_year y + k) by (subst k; unfold yday; lia).
  assert (Hsplit : r + k < _DI400Y ->
                   (_days_before_year y + k) / _DI400Y = q /\
                   (_days_before_year y + k) mod _DI400Y = r + k).
  { subst q r. unfold _DI400Y in *. intros Hlt'. split; euclid. }
  destruct (Z.lt_ge_cases k 365) as [Hk | Hk].
  - destruct (counters_add r k Hr Hk0 H1 H100 ltac:(lia))
      as (Hrk & E100 & E4 & E1 & En).
    destruct (Hsplit Hrk) as [-> ->].
    rewrite ord2ymd_cycle_eq. unfold c_leap. rewrite E100, E4, E1, En.
    fold (c_leap r). rewrite Hl, Hn, Z.add_0_l, (Hlt Hk).
    destruct (Z.eqb_spec (c_n1 r) 4); [contradiction |].
    destruct (Z.eqb_spec (c_n100 r) 4); [contradiction |].
    cbn [orb fst snd]. rewrite Hy. reflexivity.
  - destruct (Hge Hk) as (Hleap & Ek & -> & ->).
    rewrite Hleap in Hl.
    destruct (cycle_leap_end (q * 400 + 1) r Hr Hn Hl) as [Hrk Hc].
    rewrite Ek in *. destruct (Hsplit Hrk) as [-> ->].
    rewrite Hc, Hy. reflexivity.
Qed.

End CalendarFacts.

(** ** Observed holidays *)

Lemma is_observed_holiday_md (dt : datetime) :
  _is_observed_holiday dt = YearCounters.holiday_md (month dt, day dt).
Proof. reflexivity. Qed.

Lemma is_observed_holiday_iff (dt : datetime) :
  _is_observed_holiday dt = true <->
  (month dt, day dt) = (12, 25) \/ (month dt, day dt) = (1, 1).
Proof.
  unfold _is_observed_holiday.
  rewrite orb_true_iff, !andb_true_iff, !Z.eqb_eq.
  split.
  - intros [[-> ->] | [-> ->]]; auto.
  - intros [H | H]; injection H as -> ->; auto.
Qed.

(** The day after an observed holiday is in the same month, one day number
    higher. *)
Lemma holiday_tomorrow (dt : datetime) :
  _is_observed_holiday dt = true ->
  month (add_days dt 1) = month dt /\ day (add_days dt 1) = day dt + 1.
Proof.
  rewrite is_observed_holiday_md.
  unfold month, day, Calendar._ord2ymd. cbn [add_days toordinal].
  cbv zeta.
  set (n := toordinal dt).
  set (r := (n - 1) mod Calendar._DI400Y).
  assert (Hr : 0 <= r < Calendar._DI400Y)
    by (apply Z.mod_pos_bound; reflexivity).
  rewrite (CalendarFacts.ord2ymd_cycle_eq _ r).
  destruct ((YearCounters.c_n1 r =? 4) || (YearCounters.c_n100 r =? 4)) eqn:Hs;
    cbn [fst snd]; [discriminate |].
  apply orb_false_iff in Hs as [H1 H100].
  apply Z.eqb_neq in H1, H100.
  intros Hh.
  destruct (CalendarFacts.month_day_holiday_succ _ _ (CalendarFacts.c_n_range r) Hh)
    as (Hlt & Hm & Hd).
  destruct (CalendarFacts.counters_add r 1 Hr ltac:(lia) H1 H100 Hlt)
    as (Hr' & E100 & E4 & E1 & En).
  assert (Er : (n + 1 - 1) mod Calendar._DI400Y = r + 1)
    by (subst r; unfold Calendar._DI400Y in *; euclid).
  rewrite Er, CalendarFacts.ord2ymd_cycle_eq.
  unfold YearCounters.c_leap.
  rewrite E100, E4, E1, En.
  destruct (Z.eqb_spec (YearCounters.c_n1 r) 4); [contradiction |].
  destruct (Z.eqb_spec (YearCounters.c_n100 r) 4); [contradiction |].
  cbn [orb fst snd]. fold (YearCounters.c_leap r).
  split; assumption.
Qed.

Lemma holiday_tomorrow_not_holiday (dt : datetime) :
  _is_observed_holiday dt = true -> _is_observed_holiday (add_days dt 1) = false.
Proof.
  intros Hh. destruct (holiday_tomorrow dt Hh) as [Hm Hd].
  apply is_observed_holiday_iff in Hh.
  unfold _is_observed_holiday. rewrite Hm, Hd.
  destruct Hh as [Hh | Hh]; injection Hh as -> ->; reflexivity.
Qed.

(** A date built from a year, a month and a day of that month has these
    three fields. *)
Lemma localize_fields (z : tzinfo) (y m d : Z) :
  1 <= m <= 12 -> 1 <= d <= Calendar._days_in_month y m ->
  year (localize z y m d) = y /\
  month (localize z y m d) = m /\
  day (localize z y m d) = d.
Proof.
  intros Hm Hd. unfold year, month, day, localize. cbn [toordinal].
  rewrite CalendarFacts.ord2ymd_ymd2ord by assumption.
  repeat split.
Qed.

(** 25 December and 1 January are observed holidays in every year, and no
    other date of any year is. *)
Lemma localize_holiday (z : tzinfo) (y m d : Z) :
  1 <= m <= 12 -> 1 <= d <= Calendar._days_in_month y m ->
  _is_observed_holiday (localize z y m d) = true <->
  (m, d) = (12, 25) \/ (m, d) = (1, 1).
Proof.
  intros Hm Hd. rewrite is_observed_holiday_iff.
  destruct (localize_fields z y m d Hm Hd) as (_ & -> & ->). reflexivity.
Qed.

Lemma fixed_holidays_every_year (z : tzinfo) (y : Z) :
  _is_observed_holiday (localize z y 12 25) = true /\
  _is_observed_holiday (localize z y 1 1) = true.
Proof.
  split; apply localize_holiday.
  - lia.
  - change (Calendar._days_in_month y 12) with 31. lia.
  - left. reflexivity.
  - lia.
  - change (Calendar._days_in_month y 1) with 31. lia.
  - right. reflexivity.
Qed.

Lemma holiday_adjust_ordinal (dt : datetime) :
  toordinal dt <= toordinal (_holiday_adjust dt) <= toordinal dt + 1.
Proof. unfold _holiday_adjust. destruct (_is_observed_holiday dt); simpl; lia. Qed.

Lemma holiday_adjust_tz (dt : datetime) : tz (_holiday_adjust dt) = tz dt.
Proof. unfold _holiday_adjust. destruct (_is_observed_holiday dt); reflexivity. Qed.

Lemma holiday_adjust_weekday (dt : datetime) :
  weekday dt = TUESDAY ->
  weekday (_holiday_adjust dt) = TUESDAY \/ weekday (_holiday_adjust dt) = WEDNESDAY.
Proof.
  intros Hw. unfold _holiday_adjust. destruct (_is_observed_holiday dt).
  - right. apply weekday_succ_tuesday, Hw.
  - left. exact Hw.
Qed.

(** ** The biweekly rule *)

Lemma utc_minutes_add_days (dt : datetime) (n : Z) :
  utc_minutes (add_days dt n) = utc_minutes dt + 1440 * n.
Proof. unfold utc_minutes, utcoffset, add_days. cbn [toordinal tz]. lia. Qed.

Lemma biweekly_shift (dtstart : datetime) (n : nat) :
  map (biweekly (add_days dtstart 14)) (seq 0 n) = map (biweekly dtstart) (seq 1 n).
Proof.
  rewrite <- seq_shift, map_map. apply map_ext. intros k.
  unfold biweekly. rewrite add_days_add_days. f_equal. lia.
Qed.

(** With fuel beyond the number of candidates, the generator stops on its
    test and yields the candidates in order. *)
Lemma rrule_iter_biweekly (fuel : nat) :
  forall cur until : datetime,
    (biweekly_count cur until < fuel)%nat ->
    rrule.iter fuel cur until 2 =
    map (biweekly cur) (seq 0 (biweekly_count cur until)).
Proof.
  induction fuel as [| fuel IH]; intros cur until Hf; [lia |].
  cbn [rrule.iter]. unfold datetime_gtb.
  destruct (Z.ltb_spec (utc_minutes until) (utc_minutes cur)) as [Hgt | Hle].
  - replace (biweekly_count cur until) with O; [reflexivity |].
    unfold biweekly_count. euclid.
  - change (7 * 2) with 14.
    assert (Hc : biweekly_count cur until = S (biweekly_count (add_days cur 14) until)).
    { unfold biweekly_count. rewrite utc_minutes_add_days.
      set (d := utc_minutes until - utc_minutes cur).
      replace (utc_minutes until - (utc_minutes cur + 1440 * 14))
        with (d - 20160) by (subst d; lia).
      assert (Hq : (d - 20160) / 20160 = d / 20160 - 1) by euclid.
      assert (Hd : 0 <= d / 20160) by (subst d; euclid).
      rewrite Hq. lia. }
    rewrite IH by lia. rewrite Hc. cbn [seq map].
    rewrite biweekly_shift. f_equal.
    unfold biweekly. simpl Z.of_nat. apply eq_sym, add_days_0.
Qed.

Lemma rrule_weekly_biweekly (dtstart until : datetime) :
  rrule.weekly dtstart until 2 =
  map (biweekly dtstart) (seq 0 (biweekly_count dtstart until)).
Proof.
  unfold rrule.weekly. apply rrule_iter_biweekly.
  unfold rrule.fuel_for, biweekly_count. change (1440 * 7 * 2) with 20160.
  euclid.
Qed.

(** Any larger amount of fuel gives the same sequence. *)
Lemma rrule_iter_enough_fuel (fuel : nat) (dtstart until : datetime) :
  (rrule.fuel_for dtstart until 2 <= fuel)%nat ->
  rrule.iter fuel dtstart until 2 = rrule.weekly dtstart until 2.
Proof.
  intros Hf. rewrite rrule_weekly_biweekly. apply rrule_iter_biweekly.
  unfold rrule.fuel_for, biweekly_count in *.
  change (1440 * 7 * 2) with 20160 in Hf. euclid.
Qed.

Lemma recycling_count_eq (TODAY : datetime) :
  biweekly_count RECYCLING_EPOCH (add_days TODAY 14) = recycling_count TODAY.
Proof.
  unfold biweekly_count, recycling_count.
  rewrite utc_minutes_add_days. unfold utc_minutes.
  change (utcoffset RECYCLING_EPOCH) with (-300).
  generalize (toordinal RECYCLING_EPOCH) as e. intros e.
  f_equal. unfold utcoffset. destruct (tz TODAY); euclid.
Qed.

Lemma recycling_candidates_eq (TODAY : datetime) :
  recycling_candidates TODAY =
  map (biweekly RECYCLING_EPOCH) (seq 0 (recycling_count TODAY)).
Proof.
  unfold recycling_candidates.
  rewrite rrule_weekly_biweekly, recycling_count_eq. reflexivity.
Qed.

(** On the candidates, rrule's test against [until], made on instants, is
    the comparison of the calendar dates, whichever offset [TODAY] carries. *)
Lemma until_test_calendar (TODAY : datetime) (k : nat) :
  datetime_gtb (biweekly RECYCLING_EPOCH k) (add_days TODAY 14) =
  (toordinal (add_days TODAY 14) <? toordinal (biweekly RECYCLING_EPOCH k)).
Proof.
  unfold datetime_gtb, utc_minutes, biweekly, utcoffset.
  cbn [add_days toordinal tz]. change (tz RECYCLING_EPOCH) with CDT. cbv iota.
  generalize (toordinal RECYCLING_EPOCH) as e. intros e.
  destruct (Z.ltb_spec (toordinal TODAY + 14) (e + 14 * Z.of_nat k));
    [apply Z.ltb_lt | apply Z.ltb_ge]; destruct (tz TODAY); lia.
Qed.

Lemma recycling_count_lt (TODAY : datetime) (k : nat) :
  (k < recycling_count TODAY)%nat <->
  toordinal (biweekly RECYCLING_EPOCH k) <= toordinal (add_days TODAY 14).
Proof.
  unfold recycling_count, biweekly. cbn [add_days toordinal].
  generalize (toordinal RECYCLING_EPOCH) as e. intros e.
  split; intros H; euclid.
Qed.

(** ** The upcoming trash day *)

Lemma yesterday_eq (dt : datetime) :
  rel.rsub dt (rel.mkRelativedelta 1 None) = add_days dt (-1).
Proof. reflexivity. Qed.

(** The three branches of [_determine_upcoming_trash_day]. *)
Lemma determine_tuesday (D : datetime) :
  weekday D = TUESDAY -> _determine_upcoming_trash_day D = _holiday_adjust D.
Proof.
  intros Hw. unfold _determine_upcoming_trash_day.
  rewrite Hw, Z.eqb_refl. reflexivity.
Qed.

Lemma determine_makeup (D : datetime) :
  weekday D = WEDNESDAY -> _is_observed_holiday (add_days D (-1)) = true ->
  _determine_upcoming_trash_day D = D.
Proof.
  intros Hw Hy. unfold _determine_upcoming_trash_day.
  rewrite Hw, yesterday_eq, Hy. reflexivity.
Qed.

Lemma determine_otherwise (D : datetime) :
  weekday D <> TUESDAY ->
  ~ (weekday D = WEDNESDAY /\ _is_observed_holiday (add_days D (-1)) = true) ->
  _determine_upcoming_trash_day D = _holiday_adjust (next_tuesday D).
Proof.
  intros Ht Hm. unfold _determine_upcoming_trash_day.
  rewrite yesterday_eq. fold (next_tuesday D).
  destruct (Z.eqb_spec (weekday D) TUESDAY) as [E | _]; [contradiction |].
  destruct (Z.eqb_spec (weekday D) WEDNESDAY) as [E | _]; [| reflexivity].
  destruct (_is_observed_holiday (add_days D (-1))); [| reflexivity].
  exfalso. apply Hm. split; [assumption | reflexivity].
Qed.

Lemma determine_tz (D : datetime) : tz (_determine_upcoming_trash_day D) = tz D.
Proof.
  unfold _determine_upcoming_trash_day.
  destruct (weekday D =? TUESDAY); [apply holiday_adjust_tz |].
  destruct (weekday D =? WEDNESDAY);
    [destruct (_is_observed_holiday _); [reflexivity |] |];
    rewrite holiday_adjust_tz; reflexivity.
Qed.

Lemma sub_days_same_tz (a b : datetime) :
  tz a = tz b -> sub_days a b = toordinal a - toordinal b.
Proof.
  intros Hz. unfold sub_days, utc_minutes, utcoffset. rewrite Hz. euclid.
Qed.

Lemma countdown_run (D : datetime) :
  countdown (run D) = toordinal (_determine_upcoming_trash_day D) - toordinal D.
Proof. apply sub_days_same_tz, determine_tz. Qed.

(** ** Membership in the recycling days *)

Lemma datetime_eqb_refl (a : datetime) : datetime_eqb a a = true.
Proof. apply Z.eqb_refl. Qed.

(** Two datetimes of one [tzinfo] denote the same instant only when they are
    the same date; a standard-time midnight and a daylight-time midnight
    never do. *)
Lemma datetime_eqb_eq (a b : datetime) :
  tz b = CDT -> datetime_eqb a b = true -> a = b.
Proof.
  intros Hb. unfold datetime_eqb, utc_minutes, utcoffset. rewrite Hb.
  intros H. apply Z.eqb_eq in H. apply datetime_eq.
  - destruct (tz a); lia.
  - rewrite Hb. destruct (tz a); [exfalso; lia | reflexivity].
Qed.

Lemma generate_recycling_days_tz (D x : datetime) :
  In x (_generate_recycling_days D) -> tz x = CDT.
Proof.
  unfold _generate_recycling_days. fold (recycling_candidates D).
  rewrite recycling_candidates_eq, in_map_iff.
  intros (c & <- & Hc). apply in_map_iff in Hc as (k & <- & _).
  rewrite holiday_adjust_tz. reflexivity.
Qed.

(** While [TODAY] carries the standard-time offset no recycling day denotes
    the instant of the upcoming trash day. *)
Lemma recycling_standard_time (D : datetime) :
  tz D = CST -> recycling (run D) = false.
Proof.
  intros Hz. unfold run, _render_params, recycling.
  destruct (existsb _ _) eqn:He; [| reflexivity].
  apply existsb_exists in He as (x & Hin & Hx).
  apply datetime_eqb_eq in Hx; [| apply (generate_recycling_days_tz D), Hin].
  apply generate_recycling_days_tz in Hin.
  rewrite <- Hx, determine_tz in Hin. congruence.
Qed.

(** * The claims of the specification *)

(** C1. A reference date [D] that falls on a Tuesday and is not an observed
    holiday, its (month, day) being neither (12, 25) nor (1, 1), is its own
    upcoming trash day: [_determine_upcoming_trash_day D = D]. *)
Theorem plain_tuesday_is_trash_day (D : datetime) :
  weekday D = TUESDAY ->
  (month D, day D) <> (12, 25) ->
  (month D, day D) <> (1, 1) ->
  _determine_upcoming_trash_day D = D.
Proof.
  intros Hw H1 H2. rewrite determine_tuesday by assumption.
  unfold _holiday_adjust.
  destruct (_is_observed_holiday D) eqn:Hh; [| reflexivity].
  apply is_observed_holiday_iff in Hh. tauto.
Qed.

Lemma plain_tuesday_is_trash_day_witness :
  _determine_upcoming_trash_day (localize CDT 2021 3 16) = localize CDT 2021 3 16.
Proof.
  apply (plain_tuesday_is_trash_day (localize CDT 2021 3 16));
    vm_compute; congruence.
Defined.

(** C2. A reference date [D] whose (month, day) is (12, 25) or (1, 1) and
    that falls on a Tuesday has [D + 1 day] as its upcoming trash day. *)
Theorem holiday_tuesday_moves_to_wednesday (D : datetime) :
  (month D, day D) = (12, 25) \/ (month D, day D) = (1, 1) ->
  weekday D = TUESDAY ->
  _determine_upcoming_trash_day D = add_days D 1.
Proof.
  intros Hh Hw. rewrite determine_tuesday by assumption.
  apply is_observed_holiday_iff in Hh.
  unfold _holiday_adjust. rewrite Hh. reflexivity.
Qed.

Lemma holiday_tuesday_moves_to_wednesday_witness :
  _determine_upcoming_trash_day (localize CST 2029 12 25) = localize CST 2029 12 26.
Proof.
  apply (holiday_tuesday_moves_to_wednesday (localize CST 2029 12 25)).
  - left. vm_compute. reflexivity.
  - vm_compute. reflexivity.
Defined.

(** C3. A reference date [D] that falls on a Wednesday and whose previous
    day [D - 1 day] is an observed holiday is returned unchanged; the result
    is [D] and not [_holiday_adjust D], whatever [D] itself is. *)
Theorem makeup_wednesday_is_trash_day (D : datetime) :
  weekday D = WEDNESDAY ->
  _is_observed_holiday (add_days D (-1)) = true ->
  _determine_upcoming_trash_day D = D.
Proof. intros Hw Hy. apply determine_makeup; assumption. Qed.

Lemma makeup_wednesday_is_trash_day_witness :
  _determine_upcoming_trash_day (localize CST 2030 1 2) = localize CST 2030 1 2.
Proof.
  apply (makeup_wednesday_is_trash_day (localize CST 2030 1 2));
    vm_compute; reflexivity.
Defined.

(** C4. For a reference date [D] that is neither a Tuesday nor a Wednesday
    whose previous day is an observed holiday, the upcoming trash day is
    [_holiday_adjust T], where [T] is the first Tuesday strictly after [D];
    and when [D] is neither a Tuesday nor a Wednesday the result falls on a
    Tuesday or a Wednesday, is strictly after [D] and is at most
    [D + 8 days]. *)
Theorem otherwise_next_tuesday (D : datetime) :
  weekday D <> TUESDAY ->
  ~ (weekday D = WEDNESDAY /\ _is_observed_holiday (add_days D (-1)) = true) ->
  first_tuesday_after D (next_tuesday D) /\
  (forall T : datetime,
      first_tuesday_after D T ->
      _determine_upcoming_trash_day D = _holiday_adjust T) /\
  (weekday D <> WEDNESDAY ->
   (weekday (_determine_upcoming_trash_day D) = TUESDAY \/
    weekday (_determine_upcoming_trash_day D) = WEDNESDAY) /\
   toordinal D < toordinal (_determine_upcoming_trash_day D) /\
   toordinal (_determine_upcoming_trash_day D) <= toordinal (add_days D 8)).
Proof.
  intros Ht Hm.
  rewrite (determine_otherwise D Ht Hm).
  pose proof (next_tuesday_first D) as Hf.
  split; [assumption |].
  split; [intros T HT; f_equal; apply (first_tuesday_after_unique D); assumption |].
  intros _.
  pose proof (holiday_adjust_ordinal (next_tuesday D)) as Ha.
  pose proof (next_tuesday_ordinal D) as Ho.
  pose proof (weekday_range D) as Hr.
  destruct Hf as (Hw & Hlt & _).
  split; [apply holiday_adjust_weekday, Hw |].
  cbn [add_days toordinal]. unfold TUESDAY in *.
  destruct (Z.ltb_spec (weekday D) 1); lia.
Qed.

Lemma otherwise_next_tuesday_witness :
  first_tuesday_after (localize CST 2024 12 26) (next_tuesday (localize CST 2024 12 26)) /\
  (forall T : datetime,
      first_tuesday_after (localize CST 2024 12 26) T ->
      _determine_upcoming_trash_day (localize CST 2024 12 26) = _holiday_adjust T) /\
  (weekday (localize CST 2024 12 26) <> WEDNESDAY ->
   (weekday (_determine_upcoming_trash_day (localize CST 2024 12 26)) = TUESDAY \/
    weekday (_determine_upcoming_trash_day (localize CST 2024 12 26)) = WEDNESDAY) /\
   toordinal (localize CST 2024 12 26)
   < toordinal (_determine_upcoming_trash_day (localize CST 2024 12 26)) /\
   toordinal (_determine_upcoming_trash_day (localize CST 2024 12 26))
   <= toordinal (add_days (localize CST 2024 12 26) 8)).
Proof.
  apply (otherwise_next_tuesday (localize CST 2024 12 26)).
  - vm_compute. congruence.
  - vm_compute. intros [H _]. congruence.
Defined.

(** C5. [_is_observed_holiday d] is true iff the (month, day) of [d] is
    (12, 25) or (1, 1); it gives the same answer on any two dates with the
    same month and day, whatever their years; and [_holiday_adjust d] is
    [d + 1 day] when [d] is an observed holiday and [d] otherwise: one shift,
    the shifted date is not tested again. *)
Theorem holiday_rules (d : datetime) :
  (_is_observed_holiday d = true <->
   (month d, day d) = (12, 25) \/ (month d, day d) = (1, 1)) /\
  (forall d' : datetime,
      month d' = month d -> day d' = day d ->
      _is_observed_holiday d' = _is_observed_holiday d) /\
  (forall (z : tzinfo) (y : Z),
      _is_observed_holiday (localize z y 12 25) = true /\
      _is_observed_holiday (localize z y 1 1) = true) /\
  _holiday_adjust d = (if _is_observed_holiday d then add_days d 1 else d) /\
  (_is_observed_holiday d = true -> _holiday_adjust d = add_days d 1) /\
  (_is_observed_holiday d = false -> _holiday_adjust d = d).
Proof.
  split; [apply is_observed_holiday_iff |].
  split; [intros d' Hm Hd; unfold _is_observed_holiday; rewrite Hm, Hd; reflexivity |].
  split; [apply fixed_holidays_every_year |].
  split; [reflexivity |].
  unfold _holiday_adjust. split; intros ->; reflexivity.
Qed.

(** C6. [_generate_recycling_days D] yields the holiday-adjusted images of
    [RECYCLING_EPOCH] (2021-03-16), [RECYCLING_EPOCH + 14 days],
    [RECYCLING_EPOCH + 28 days], ..., in this order, up to the last such
    unadjusted date that is at most [D + 14 days]; every unadjusted
    candidate [c] satisfies [(c - RECYCLING_EPOCH).days mod 14 = 0]. *)
Theorem generate_recycling_days_spec (D : datetime) :
  Calendar._ord2ymd (toordinal RECYCLING_EPOCH) = (2021, 3, 16) /\
  _generate_recycling_days D = map _holiday_adjust (recycling_candidates D) /\
  recycling_candidates D =
    map (fun k : nat => add_days RECYCLING_EPOCH (14 * Z.of_nat k))
        (seq 0 (recycling_count D)) /\
  (forall c : datetime,
      In c (recycling_candidates D) <->
      exists k : nat,
        c = add_days RECYCLING_EPOCH (14 * Z.of_nat k) /\
        toordinal c <= toordinal (add_days D 14)) /\
  (forall c : datetime,
      In c (recycling_candidates D) -> sub_days c RECYCLING_EPOCH mod 14 = 0).
Proof.
  split; [vm_compute; reflexivity |].
  split; [reflexivity |].
  split; [apply recycling_candidates_eq |].
  rewrite recycling_candidates_eq. fold (biweekly RECYCLING_EPOCH).
  split.
  - intros c. rewrite in_map_iff. split.
    + intros (k & <- & Hk). exists k. split; [reflexivity |].
      apply in_seq in Hk. apply recycling_count_lt. lia.
    + intros (k & -> & Hk). exists k. split; [reflexivity |].
      apply in_seq. apply (recycling_count_lt D k) in Hk. lia.
  - intros c Hc. apply in_map_iff in Hc as (k & <- & _).
    rewrite sub_days_same_tz by reflexivity.
    unfold biweekly. cbn [add_days toordinal].
    replace (toordinal RECYCLING_EPOCH + 14 * Z.of_nat k - toordinal RECYCLING_EPOCH)
      with (Z.of_nat k * 14) by lia.
    apply Z.mod_mul. lia.
Qed.

(** C7, as the specification states it, fails: for [D] = 2024-12-24 the
    upcoming trash day is not 2024-12-26 with a countdown of 2. *)
Lemma christmas_eve_2024_not_boxing_day :
  ~ (_determine_upcoming_trash_day (localize CST 2024 12 24) = localize CST 2024 12 26 /\
     countdown (run (localize CST 2024 12 24)) = 2).
Proof. vm_compute. intros [H _]. discriminate H. Qed.

(** C7, amended. 2024-12-24 is a Tuesday and not an observed holiday, so for
    [D] = 2024-12-24 the upcoming trash day is 2024-12-24 itself and the
    countdown of the result record is 0. *)
Theorem christmas_eve_2024_is_trash_day (z : tzinfo) :
  weekday (localize z 2024 12 24) = TUESDAY /\
  _is_observed_holiday (localize z 2024 12 24) = false /\
  _determine_upcoming_trash_day (localize z 2024 12 24) = localize z 2024 12 24 /\
  countdown (run (localize z 2024 12 24)) = 0.
Proof. destruct z; vm_compute; repeat split; reflexivity. Qed.

(** C8. The recycling flag is the [in] test of the trash day against the
    generated recycling days, and that test compares instants.  In daylight
    time it agrees with the calendar: for [D] = 2021-03-16, the recycling
    epoch and a Tuesday, the trash day is [D] and the flag is true; for
    [D] = 2021-03-23, a Tuesday one week later, the flag is false.  In
    standard time it does not: for [D] = 2021-11-09, a Tuesday seventeen
    fortnights after the epoch, the trash day is [D], a recycling day with
    the calendar date of [D] is generated, and yet the flag is false,
    against the docstring of [_generate_recycling_days], "Recycling comes
    every other Tuesday". *)
Theorem recycling_flag_misses_standard_time :
  (weekday (localize CDT 2021 3 16) = TUESDAY /\
   localize CDT 2021 3 16 = RECYCLING_EPOCH /\
   _determine_upcoming_trash_day (localize CDT 2021 3 16) = localize CDT 2021 3 16 /\
   recycling (run (localize CDT 2021 3 16)) = true) /\
  (weekday (localize CDT 2021 3 23) = TUESDAY /\
   localize CDT 2021 3 23 = add_days RECYCLING_EPOCH 7 /\
   recycling (run (localize CDT 2021 3 23)) = false) /\
  (weekday (localize CST 2021 11 9) = TUESDAY /\
   toordinal (localize CST 2021 11 9) = toordinal RECYCLING_EPOCH + 14 * 17 /\
   _determine_upcoming_trash_day (localize CST 2021 11 9) = localize CST 2021 11 9 /\
   (exists x : datetime,
       In x (_generate_recycling_days (localize CST 2021 11 9)) /\
       toordinal x = toordinal (localize CST 2021 11 9) /\
       (year x, month x, day x) = (2021, 11, 9)) /\
   recycling (run (localize CST 2021 11 9)) = false).
Proof.
  split; [vm_compute; repeat split; reflexivity |].
  split; [vm_compute; repeat split; reflexivity |].
  split; [reflexivity |]. split; [reflexivity |].
  split; [vm_compute; reflexivity |].
  split; [| vm_compute; reflexivity].
  exists (_holiday_adjust (biweekly RECYCLING_EPOCH 17)).
  split; [| split; vm_compute; reflexivity].
  unfold _generate_recycling_days.
  apply (in_map (fun x => _holiday_adjust x)).
  fold (recycling_candidates (localize CST 2021 11 9)).
  rewrite recycling_candidates_eq.
  apply (in_map (biweekly RECYCLING_EPOCH)), in_seq.
  assert (Hc : recycling_count (localize CST 2021 11 9) = 19%nat)
    by (vm_compute; reflexivity).
  rewrite Hc. lia.
Qed.

(** C9. The result of [_holiday_adjust] is never an observed holiday: the
    day after a 25 December is a 26 December, the day after a 1 January a
    2 January.  Hence [_holiday_adjust] is idempotent. *)
Theorem holiday_adjust_idempotent (d : datetime) :
  _is_observed_holiday (_holiday_adjust d) = false /\
  (_is_observed_holiday d = true ->
   (month (_holiday_adjust d), day (_holiday_adjust d)) = (12, 26) \/
   (month (_holiday_adjust d), day (_holiday_adjust d)) = (1, 2)) /\
  _holiday_adjust (_holiday_adjust d) = _holiday_adjust d.
Proof.
  assert (Hn : _is_observed_holiday (_holiday_adjust d) = false).
  { unfold _holiday_adjust. destruct (_is_observed_holiday d) eqn:Hh.
    - apply holiday_tomorrow_not_holiday, Hh.
    - exact Hh. }
  split; [exact Hn |]. split.
  - intros Hh. unfold _holiday_adjust. rewrite Hh.
    destruct (holiday_tomorrow d Hh) as [-> ->].
    apply is_observed_holiday_iff in Hh.
    destruct Hh as [Hh | Hh]; injection Hh as -> ->; auto.
  - unfold _holiday_adjust at 1. rewrite Hn. reflexivity.
Qed.

(** C10. For every reference date [D] the upcoming trash day falls on a
    Tuesday or a Wednesday and lies between [D] and [D + 7 days], both
    included; the countdown of the result record is therefore an integer
    between 0 and 7. *)
Theorem trash_day_within_a_week (D : datetime) :
  (weekday (_determine_upcoming_trash_day D) = TUESDAY \/
   weekday (_determine_upcoming_trash_day D) = WEDNESDAY) /\
  toordinal D <= toordinal (_determine_upcoming_trash_day D) /\
  toordinal (_determine_upcoming_trash_day D) <= toordinal (add_days D 7) /\
  0 <= countdown (run D) <= 7.
Proof.
  rewrite countdown_run. cbn [add_days toordinal].
  destruct (Z.eq_dec (weekday D) TUESDAY) as [Ht | Ht].
  - rewrite determine_tuesday by assumption.
    pose proof (holiday_adjust_ordinal D).
    split; [apply holiday_adjust_weekday, Ht | lia].
  - destruct (Z.eq_dec (weekday D) WEDNESDAY) as [Hw | Hw].
    + destruct (_is_observed_holiday (add_days D (-1))) eqn:Hy.
      * rewrite determine_makeup by assumption.
        split; [right; exact Hw | lia].
      * rewrite determine_otherwise by (try assumption; intros [_ H]; congruence).
        pose proof (holiday_adjust_ordinal (next_tuesday D)).
        pose proof (next_tuesday_ordinal D) as Ho.
        destruct (next_tuesday_first D) as (Hf & _).
        split; [apply holiday_adjust_weekday, Hf |].
        unfold TUESDAY, WEDNESDAY in *.
        destruct (Z.ltb_spec (weekday D) 1); lia.
    + rewrite determine_otherwise by (try assumption; intros [H _]; congruence).
      pose proof (holiday_adjust_ordinal (next_tuesday D)).
      pose proof (next_tuesday_ordinal D) as Ho.
      pose proof (weekday_range D).
      destruct (next_tuesday_first D) as (Hf & _).
      split; [apply holiday_adjust_weekday, Hf |].
      unfold TUESDAY, WEDNESDAY in *.
      destruct (Z.ltb_spec (weekday D) 1); lia.
Qed.

(** Both ends of the countdown range are reached. *)
Example countdown_zero : countdown (run (localize CDT 2021 3 16)) = 0.
Proof. vm_compute. reflexivity. Qed.

Example countdown_seven : countdown (run (localize CST 2029 12 19)) = 7.
Proof. vm_compute. reflexivity. Qed.

(** * Further properties of the schedule *)

(** ** Pickup days *)

Lemma add_days_succ_pred (dt : datetime) : add_days (add_days dt 1) (-1) = dt.
Proof. rewrite add_days_add_days. apply add_days_0. Qed.

Lemma add_days_pred_succ (dt : datetime) : add_days (add_days dt (-1)) 1 = dt.
Proof. rewrite add_days_add_days. apply add_days_0. Qed.

Lemma holiday_adjust_pickup_day (T : datetime) :
  weekday T = TUESDAY -> is_pickup_day (_holiday_adjust T).
Proof.
  intros Hw. unfold _holiday_adjust.
  destruct (_is_observed_holiday T) eqn:Hh.
  - right. split; [apply weekday_succ_tuesday, Hw |].
    rewrite add_days_succ_pred. exact Hh.
  - left. split; assumption.
Qed.

Lemma determine_pickup_day (D : datetime) :
  is_pickup_day (_determine_upcoming_trash_day D).
Proof.
  destruct (Z.eq_dec (weekday D) TUESDAY) as [Ht | Ht].
  - rewrite determine_tuesday by assumption. apply holiday_adjust_pickup_day, Ht.
  - destruct (Z.eq_dec (weekday D) WEDNESDAY) as [Hw | Hw];
      [destruct (_is_observed_holiday (add_days D (-1))) eqn:Hy |].
    + rewrite determine_makeup by assumption. right. split; assumption.
    + rewrite determine_otherwise by (try assumption; intros [_ H]; congruence).
      apply holiday_adjust_pickup_day, next_tuesday_first.
    + rewrite determine_otherwise by (try assumption; intros [H _]; congruence).
      apply holiday_adjust_pickup_day, next_tuesday_first.
Qed.

Lemma pickup_day_not_holiday (x : datetime) :
  is_pickup_day x -> _is_observed_holiday x = false.
Proof.
  intros [[_ H] | [_ H]]; [exact H |].
  apply holiday_tomorrow_not_holiday in H.
  rewrite add_days_pred_succ in H. exact H.
Qed.

Lemma pickup_day_fixed (x : datetime) :
  is_pickup_day x -> _determine_upcoming_trash_day x = x.
Proof.
  intros [[Hw Hh] | [Hw Hh]].
  - rewrite determine_tuesday by assumption. unfold _holiday_adjust.
    rewrite Hh. reflexivity.
  - apply determine_makeup; assumption.
Qed.

Lemma fixed_pickup_day (x : datetime) :
  _determine_upcoming_trash_day x = x -> is_pickup_day x.
Proof. intros H. rewrite <- H. apply determine_pickup_day. Qed.

(** Between a day and its upcoming trash day only the final [return] of
    [_determine_upcoming_trash_day] is taken, with the same Tuesday. *)
Lemma determine_before_next_tuesday (D D' : datetime) :
  weekday D <> TUESDAY -> tz D' = tz D ->
  toordinal D < toordinal D' < toordinal (next_tuesday D) ->
  _determine_upcoming_trash_day D' = _holiday_adjust (next_tuesday D).
Proof.
  intros Ht Hz Hd.
  pose proof (next_tuesday_ordinal D) as Ho.
  pose proof (next_tuesday_ordinal D') as Ho'.
  pose proof (weekday_range D) as Hr.
  unfold TUESDAY, WEDNESDAY in *.
  assert (Hw : weekday D' <> 1 /\ weekday D' <> 2).
  { unfold weekday in *.
    destruct (Z.ltb_spec ((toordinal D + 6) mod 7) 1); euclid. }
  destruct Hw as [Hw1 Hw2].
  rewrite determine_otherwise by (try assumption; intros [H _]; contradiction).
  f_equal. apply datetime_eq.
  - unfold weekday in *.
    destruct (Z.ltb_spec ((toordinal D + 6) mod 7) 1);
      destruct (Z.ltb_spec ((toordinal D' + 6) mod 7) 1); euclid.
  - destruct (next_tuesday_first D) as (_ & _ & -> & _).
    destruct (next_tuesday_first D') as (_ & _ & -> & _). assumption.
Qed.

Lemma determine_stable (D D' : datetime) :
  tz D' = tz D ->
  toordinal D <= toordinal D' <= toordinal (_determine_upcoming_trash_day D) ->
  _determine_upcoming_trash_day D' = _determine_upcoming_trash_day D.
Proof.
  intros Hz Hd.
  destruct (Z.eq_dec (toordinal D') (toordinal D)) as [E | NE];
    [f_equal; apply datetime_eq; assumption |].
  destruct (Z.eq_dec (toordinal D') (toordinal (_determine_upcoming_trash_day D)))
    as [E | NE'].
  { assert (ED : D' = _determine_upcoming_trash_day D)
      by (apply datetime_eq; [assumption | rewrite determine_tz; assumption]).
    rewrite ED at 1. apply pickup_day_fixed, determine_pickup_day. }
  destruct (Z.eq_dec (weekday D) TUESDAY) as [Ht | Ht].
  { rewrite determine_tuesday in Hd, NE' by assumption.
    pose proof (holiday_adjust_ordinal D). lia. }
  destruct (Z.eq_dec (weekday D) WEDNESDAY) as [Hw | Hw];
    [destruct (_is_observed_holiday (add_days D (-1))) eqn:Hy |].
  { rewrite determine_makeup in Hd by assumption. lia. }
  all: rewrite (determine_otherwise D) in *
      by (try assumption; intros [H1 H2]; congruence).
  all: pose proof (holiday_adjust_ordinal (next_tuesday D)) as Ha.
  all: destruct (Z.eq_dec (toordinal D') (toordinal (next_tuesday D))) as [ET | NT];
    [| apply determine_before_next_tuesday; [assumption | assumption | lia]].
  all: assert (ED : D' = next_tuesday D)
      by (apply datetime_eq; [assumption |];
          destruct (next_tuesday_first D) as (_ & _ & -> & _); assumption).
  all: rewrite ED; apply determine_tuesday, next_tuesday_first.
Qed.

(** ** Recycling days *)

Lemma in_generate_recycling_days (D x : datetime) :
  In x (_generate_recycling_days D) <->
  exists k : nat,
    x = _holiday_adjust (biweekly RECYCLING_EPOCH k) /\
    toordinal (biweekly RECYCLING_EPOCH k) <= toordinal D + 14.
Proof.
  unfold _generate_recycling_days. fold (recycling_candidates D).
  rewrite recycling_candidates_eq, map_map, in_map_iff.
  split.
  - intros (k & <- & Hk). exists k. split; [reflexivity |].
    apply in_seq in Hk. apply (recycling_count_lt D k). lia.
  - intros (k & -> & Hk). exists k. split; [reflexivity |].
    apply in_seq. apply (recycling_count_lt D k) in Hk. lia.
Qed.

Lemma recycling_true_iff (TODAY trash_day : datetime) :
  recycling (_render_params TODAY trash_day) = true <->
  In trash_day (_generate_recycling_days TODAY).
Proof.
  unfold _render_params, recycling. rewrite existsb_exists. split.
  - intros (x & Hin & Hx).
    apply datetime_eqb_eq in Hx; [| apply (generate_recycling_days_tz TODAY), Hin].
    subst x. exact Hin.
  - intros Hin. exists trash_day. split; [exact Hin | apply datetime_eqb_refl].
Qed.

Lemma determine_ordinal (D : datetime) :
  toordinal D <= toordinal (_determine_upcoming_trash_day D) <= toordinal D + 7.
Proof.
  destruct (Z.eq_dec (weekday D) TUESDAY) as [Ht | Ht].
  { rewrite determine_tuesday by assumption.
    pose proof (holiday_adjust_ordinal D). lia. }
  pose proof (holiday_adjust_ordinal (next_tuesday D)).
  pose proof (next_tuesday_ordinal D) as Ho.
  pose proof (weekday_range D).
  assert (toordinal D < toordinal (next_tuesday D) <= toordinal D + 6)
    by (unfold TUESDAY in *; destruct (Z.ltb_spec (weekday D) 1); lia).
  destruct (Z.eq_dec (weekday D) WEDNESDAY) as [Hw | Hw];
    [destruct (_is_observed_holiday (add_days D (-1))) eqn:Hy |].
  - rewrite determine_makeup by assumption. lia.
  - rewrite determine_otherwise by (try assumption; intros [_ H']; congruence). lia.
  - rewrite determine_otherwise by (try assumption; intros [H' _]; congruence). lia.
Qed.

(** The window of 14 days never hides the candidate of the upcoming trash
    day. *)
Lemma recycling_run_iff (D : datetime) :
  recycling (run D) = true <->
  exists k : nat,
    _determine_upcoming_trash_day D = _holiday_adjust (biweekly RECYCLING_EPOCH k).
Proof.
  unfold run. rewrite recycling_true_iff, in_generate_recycling_days.
  split; intros (k & Hk); exists k; [apply Hk |].
  split; [assumption |].
  pose proof (determine_ordinal D).
  pose proof (holiday_adjust_ordinal (biweekly RECYCLING_EPOCH k)).
  rewrite Hk in *. lia.
Qed.

Lemma weekday_biweekly (k : nat) : weekday (biweekly RECYCLING_EPOCH k) = TUESDAY.
Proof.
  unfold biweekly. rewrite weekday_add_days.
  change (weekday RECYCLING_EPOCH) with 1. unfold TUESDAY. euclid.
Qed.

Lemma pickup_tuesday_adjust (T : datetime) :
  weekday T = TUESDAY -> pickup_tuesday (_holiday_adjust T) = T.
Proof.
  intros Hw. unfold pickup_tuesday, _holiday_adjust.
  destruct (_is_observed_holiday T).
  - rewrite (weekday_succ_tuesday T Hw). change (WEDNESDAY =? TUESDAY) with false.
    apply add_days_succ_pred.
  - rewrite Hw, Z.eqb_refl. reflexivity.
Qed.

Lemma adjust_pickup_tuesday (r : datetime) :
  is_pickup_day r ->
  weekday (pickup_tuesday r) = TUESDAY /\ _holiday_adjust (pickup_tuesday r) = r.
Proof.
  unfold pickup_tuesday, _holiday_adjust.
  intros [[Hw Hh] | [Hw Hh]]; rewrite Hw.
  - rewrite Z.eqb_refl, Hh. split; [assumption | reflexivity].
  - change (WEDNESDAY =? TUESDAY) with false. cbv iota. rewrite Hh. split.
    + rewrite weekday_add_days, Hw. reflexivity.
    + apply add_days_pred_succ.
Qed.

Lemma recycling_run_cycle (D : datetime) :
  recycling (run D) = true <->
  tz D = CDT /\
  toordinal RECYCLING_EPOCH
  <= toordinal (pickup_tuesday (_determine_upcoming_trash_day D)) /\
  (toordinal (pickup_tuesday (_determine_upcoming_trash_day D))
   - toordinal RECYCLING_EPOCH) mod 14 = 0.
Proof.
  rewrite recycling_run_iff. split.
  - intros (k & Hk). rewrite Hk, pickup_tuesday_adjust by apply weekday_biweekly.
    split; [| split].
    + rewrite <- (determine_tz D), Hk, holiday_adjust_tz. reflexivity.
    + unfold biweekly. cbn [add_days toordinal]. lia.
    + unfold biweekly. cbn [add_days toordinal].
      replace (toordinal RECYCLING_EPOCH + 14 * Z.of_nat k - toordinal RECYCLING_EPOCH)
        with (Z.of_nat k * 14) by lia.
      apply Z.mod_mul. lia.
  - intros (Hz & Hle & Hm).
    destruct (adjust_pickup_tuesday _ (determine_pickup_day D)) as [_ Ha].
    set (T := pickup_tuesday (_determine_upcoming_trash_day D)) in *.
    exists (Z.to_nat ((toordinal T - toordinal RECYCLING_EPOCH) / 14)).
    rewrite <- Ha. f_equal. apply datetime_eq.
    + unfold biweekly. cbn [add_days toordinal].
      rewrite Z2Nat.id by euclid. euclid.
    + unfold biweekly. cbn [add_days tz]. change (tz RECYCLING_EPOCH) with CDT.
      rewrite <- Hz, <- (determine_tz D). subst T. unfold pickup_tuesday.
      destruct (weekday _ =? TUESDAY); reflexivity.
Qed.

Lemma generate_recycling_days_eq (D : datetime) :
  _generate_recycling_days D =
  map (fun k : nat => _holiday_adjust (biweekly RECYCLING_EPOCH k))
      (seq 0 (recycling_count D)).
Proof.
  unfold _generate_recycling_days. fold (recycling_candidates D).
  rewrite recycling_candidates_eq, map_map. reflexivity.
Qed.

Lemma adjusted_biweekly_before (i j : nat) :
  (i < j)%nat ->
  before (_holiday_adjust (biweekly RECYCLING_EPOCH i))
         (_holiday_adjust (biweekly RECYCLING_EPOCH j)).
Proof.
  intros Hij. unfold before.
  pose proof (holiday_adjust_ordinal (biweekly RECYCLING_EPOCH i)) as Hi.
  pose proof (holiday_adjust_ordinal (biweekly RECYCLING_EPOCH j)) as Hj.
  unfold biweekly in *. cbn [add_days toordinal] in *. lia.
Qed.

Lemma map_seq_strongly_sorted (f : nat -> datetime) :
  (forall i j : nat, (i < j)%nat -> before (f i) (f j)) ->
  forall n s : nat, StronglySorted before (map f (seq s n)).
Proof.
  intros Hf. induction n as [| n IH]; intros s; cbn [seq map].
  - constructor.
  - constructor; [apply IH |].
    apply Forall_forall. intros x Hx.
    apply in_map_iff in Hx as (j & <- & Hj). apply in_seq in Hj.
    apply Hf. lia.
Qed.

Lemma strongly_sorted_before_nodup (l : list datetime) :
  StronglySorted before l -> NoDup l.
Proof.
  induction 1 as [| a l Hs IH Hall]; constructor; [| assumption].
  intros Hin. rewrite Forall_forall in Hall.
  specialize (Hall a Hin). unfold before in Hall. lia.
Qed.

Lemma recycling_count_mono (D D' : datetime) :
  toordinal D <= toordinal D' -> (recycling_count D <= recycling_count D')%nat.
Proof.
  unfold recycling_count. generalize (toordinal RECYCLING_EPOCH) as e.
  intros e Hd.
  assert ((toordinal D + 14 - e) / 14 <= (toordinal D' + 14 - e) / 14) by euclid.
  lia.
Qed.

Lemma is_pickup_day_ordinal (a b : datetime) :
  toordinal a = toordinal b -> is_pickup_day a -> is_pickup_day b.
Proof.
  unfold is_pickup_day, _is_observed_holiday, month, day, weekday.
  cbn [add_days toordinal]. intros ->. exact (fun H => H).
Qed.

(** * Properties beyond the claims *)

(** X1. The upcoming trash day is always a pickup day: a Tuesday that is not
    an observed holiday, or the Wednesday after a Tuesday that is one.  In
    particular it is never itself an observed holiday. *)
Theorem upcoming_trash_day_is_pickup_day (D : datetime) :
  is_pickup_day (_determine_upcoming_trash_day D) /\
  _is_observed_holiday (_determine_upcoming_trash_day D) = false.
Proof.
  split; [| apply pickup_day_not_holiday]; apply determine_pickup_day.
Qed.

(** X2. The countdown is 0 exactly when today is the answer, which happens
    exactly on pickup days; asked again on the day it announced, the program
    announces that same day with a countdown of 0. *)
Theorem countdown_zero_iff_pickup_day (D : datetime) :
  (countdown (run D) = 0 <-> _determine_upcoming_trash_day D = D) /\
  (_determine_upcoming_trash_day D = D <-> is_pickup_day D) /\
  _determine_upcoming_trash_day (_determine_upcoming_trash_day D)
  = _determine_upcoming_trash_day D /\
  countdown (run (_determine_upcoming_trash_day D)) = 0.
Proof.
  assert (Hfix : _determine_upcoming_trash_day (_determine_upcoming_trash_day D)
                 = _determine_upcoming_trash_day D)
    by apply pickup_day_fixed, determine_pickup_day.
  repeat split.
  - rewrite countdown_run. intros H.
    apply datetime_eq; [lia | apply determine_tz].
  - rewrite countdown_run. intros ->. lia.
  - apply fixed_pickup_day.
  - apply pickup_day_fixed.
  - exact Hfix.
  - rewrite countdown_run, Hfix. lia.
Qed.

(** X3. From a day to its upcoming trash day the announcement does not
    change: on every day [D'] in between the program names the same trash
    day and the same recycling flag, and the countdown has gone down by the
    days elapsed. *)
Theorem announcement_stable (D D' : datetime) :
  tz D' = tz D ->
  toordinal D <= toordinal D' <= toordinal (_determine_upcoming_trash_day D) ->
  _determine_upcoming_trash_day D' = _determine_upcoming_trash_day D /\
  countdown (run D') = countdown (run D) - (toordinal D' - toordinal D) /\
  recycling (run D') = recycling (run D).
Proof.
  intros Hz Hd. pose proof (determine_stable D D' Hz Hd) as Hs.
  split; [assumption |]. split.
  - rewrite !countdown_run, Hs. lia.
  - apply eq_true_iff_eq. rewrite !recycling_run_iff, Hs. reflexivity.
Qed.

Lemma announcement_stable_witness :
  _determine_upcoming_trash_day (localize CDT 2021 3 27)
  = _determine_upcoming_trash_day (localize CDT 2021 3 24) /\
  countdown (run (localize CDT 2021 3 27))
  = countdown (run (localize CDT 2021 3 24))
    - (toordinal (localize CDT 2021 3 27) - toordinal (localize CDT 2021 3 24)) /\
  recycling (run (localize CDT 2021 3 27)) = recycling (run (localize CDT 2021 3 24)).
Proof.
  apply (announcement_stable (localize CDT 2021 3 24) (localize CDT 2021 3 27)).
  - reflexivity.
  - vm_compute. split; discriminate.
Defined.

(** X4. No pickup day is skipped: no day from [D] up to, and not including,
    the upcoming trash day is a pickup day. *)
Theorem no_pickup_day_skipped (D x : datetime) :
  toordinal D <= toordinal x < toordinal (_determine_upcoming_trash_day D) ->
  ~ is_pickup_day x.
Proof.
  intros Hx Hp.
  set (x' := mkDatetime (toordinal x) (tz D)).
  assert (Hp' : is_pickup_day x') by (apply (is_pickup_day_ordinal x); auto).
  apply pickup_day_fixed in Hp'.
  rewrite (determine_stable D x') in Hp' by (subst x'; simpl; auto; lia).
  apply (f_equal toordinal) in Hp'. subst x'. simpl in Hp'. lia.
Qed.

Lemma no_pickup_day_skipped_witness : ~ is_pickup_day (localize CST 2024 12 28).
Proof.
  apply (no_pickup_day_skipped (localize CST 2024 12 26) (localize CST 2024 12 28)).
  vm_compute. split; [discriminate | reflexivity].
Defined.

(** X5. [_generate_recycling_days] yields nothing exactly when
    [TODAY + 14 days] falls before the recycling epoch; the recycling flag is
    then false whatever trash day is tested. *)
Theorem recycling_days_empty_iff (D : datetime) :
  (_generate_recycling_days D = [] <->
   toordinal (add_days D 14) < toordinal RECYCLING_EPOCH) /\
  (toordinal (add_days D 14) < toordinal RECYCLING_EPOCH ->
   forall trash_day : datetime, recycling (_render_params D trash_day) = false).
Proof.
  assert (Hc : recycling_count D = O <->
               toordinal (add_days D 14) < toordinal RECYCLING_EPOCH).
  { unfold recycling_count. cbn [add_days toordinal].
    generalize (toordinal RECYCLING_EPOCH) as e. intros e.
    assert (0 <= (toordinal D + 14 - e) / 14 <-> e <= toordinal D + 14) by euclid.
    lia. }
  assert (He : _generate_recycling_days D = [] <->
               toordinal (add_days D 14) < toordinal RECYCLING_EPOCH).
  { rewrite <- Hc, generate_recycling_days_eq. split.
    - intros H. apply (f_equal (@length datetime)) in H.
      rewrite length_map, length_seq in H. exact H.
    - intros ->. reflexivity. }
  split; [exact He |].
  intros Hlt t. apply He in Hlt. unfold _render_params, recycling.
  rewrite Hlt. reflexivity.
Qed.

(** X6. The recycling days come out in strictly increasing calendar order,
    hence without repetition, and there is one for each candidate
    [RECYCLING_EPOCH + 14 k] not after [TODAY + 14 days]. *)
Theorem recycling_days_sorted (D : datetime) :
  StronglySorted before (_generate_recycling_days D) /\
  NoDup (_generate_recycling_days D) /\
  length (_generate_recycling_days D) =
  Z.to_nat ((toordinal D + 14 - toordinal RECYCLING_EPOCH) / 14 + 1).
Proof.
  assert (Hs : StronglySorted before (_generate_recycling_days D)).
  { rewrite generate_recycling_days_eq.
    apply map_seq_strongly_sorted, adjusted_biweekly_before. }
  split; [exact Hs |]. split; [apply strongly_sorted_before_nodup, Hs |].
  rewrite generate_recycling_days_eq, length_map, length_seq. reflexivity.
Qed.

(** X7. Every recycling day generated is a pickup day, not an observed
    holiday, carries the daylight-time [tzinfo] of the epoch, and lies
    between the epoch and [TODAY + 15 days]. *)
Theorem recycling_days_are_pickup_days (D x : datetime) :
  In x (_generate_recycling_days D) ->
  is_pickup_day x /\
  _is_observed_holiday x = false /\
  tz x = CDT /\
  toordinal RECYCLING_EPOCH <= toordinal x <= toordinal (add_days D 15).
Proof.
  intros Hin.
  pose proof (generate_recycling_days_tz D x Hin) as Hz.
  apply in_generate_recycling_days in Hin as (k & -> & Hk).
  pose proof (holiday_adjust_pickup_day _ (weekday_biweekly k)) as Hp.
  split; [exact Hp |]. split; [apply pickup_day_not_holiday, Hp |].
  split; [exact Hz |].
  pose proof (holiday_adjust_ordinal (biweekly RECYCLING_EPOCH k)) as Ha.
  unfold biweekly in *. cbn [add_days toordinal] in *. lia.
Qed.

Lemma recycling_days_are_pickup_days_witness :
  is_pickup_day RECYCLING_EPOCH /\
  _is_observed_holiday RECYCLING_EPOCH = false /\
  tz RECYCLING_EPOCH = CDT /\
  toordinal RECYCLING_EPOCH <= toordinal RECYCLING_EPOCH
  <= toordinal (add_days (localize CDT 2021 3 16) 15).
Proof.
  apply (recycling_days_are_pickup_days (localize CDT 2021 3 16) RECYCLING_EPOCH).
  vm_compute. left. reflexivity.
Defined.

(** X8. A later [TODAY] only appends: the recycling days of a day are a
    prefix of those of any later day. *)
Theorem recycling_days_prefix (D D' : datetime) :
  toordinal D <= toordinal D' ->
  exists l : list datetime,
    _generate_recycling_days D' = _generate_recycling_days D ++ l.
Proof.
  intros Hd. pose proof (recycling_count_mono D D' Hd) as Hc.
  rewrite !generate_recycling_days_eq.
  replace (recycling_count D')
    with (recycling_count D + (recycling_count D' - recycling_count D))%nat by lia.
  rewrite seq_app, map_app. eexists. reflexivity.
Qed.

Lemma recycling_days_prefix_witness :
  exists l : list datetime,
    _generate_recycling_days (localize CDT 2021 4 1)
    = _generate_recycling_days (localize CDT 2021 3 16) ++ l.
Proof.
  apply (recycling_days_prefix (localize CDT 2021 3 16) (localize CDT 2021 4 1)).
  vm_compute. discriminate.
Defined.

(** X9. The 14-day window never hides the match: whenever the calendar
    date of the upcoming trash day is that of the holiday-adjusted image of
    some date [RECYCLING_EPOCH + 14 k], [k >= 0], with no bound on [k], that
    image is among the generated recycling days.  The recycling flag of a
    run is therefore true exactly when [TODAY] carries the daylight-time
    [tzinfo] and the trash day has the calendar date of such an image. *)
Theorem recycling_window_suffices (D : datetime) :
  (forall k : nat,
      toordinal (_determine_upcoming_trash_day D)
      = toordinal (_holiday_adjust (add_days RECYCLING_EPOCH (14 * Z.of_nat k))) ->
      In (_holiday_adjust (add_days RECYCLING_EPOCH (14 * Z.of_nat k)))
         (_generate_recycling_days D)) /\
  (recycling (run D) = true <->
   tz D = CDT /\
   exists k : nat,
     toordinal (_determine_upcoming_trash_day D)
     = toordinal (_holiday_adjust (add_days RECYCLING_EPOCH (14 * Z.of_nat k)))).
Proof.
  fold (biweekly RECYCLING_EPOCH).
  assert (Hin : forall k : nat,
             toordinal (_determine_upcoming_trash_day D)
             = toordinal (_holiday_adjust (biweekly RECYCLING_EPOCH k)) ->
             In (_holiday_adjust (biweekly RECYCLING_EPOCH k))
                (_generate_recycling_days D)).
  { intros k Hk. apply in_generate_recycling_days. exists k.
    split; [reflexivity |].
    pose proof (determine_ordinal D).
    pose proof (holiday_adjust_ordinal (biweekly RECYCLING_EPOCH k)). lia. }
  split; [exact Hin |].
  rewrite recycling_run_iff. split.
  - intros (k & Hk). split.
    + rewrite <- (determine_tz D), Hk, holiday_adjust_tz. reflexivity.
    + exists k. rewrite Hk. reflexivity.
  - intros (Hz & k & Hk). exists k. apply datetime_eq; [exact Hk |].
    rewrite determine_tz, holiday_adjust_tz, Hz. reflexivity.
Qed.

(** X10. The recycling flag of a run is true exactly when [TODAY] carries
    the daylight-time [tzinfo] and the Tuesday of the upcoming pickup is a
    whole number of fortnights after the epoch. *)
Theorem recycling_iff_on_cycle (D : datetime) :
  recycling (run D) = true <->
  tz D = CDT /\
  toordinal RECYCLING_EPOCH
  <= toordinal (pickup_tuesday (_determine_upcoming_trash_day D)) /\
  (toordinal (pickup_tuesday (_determine_upcoming_trash_day D))
   - toordinal RECYCLING_EPOCH) mod 14 = 0.
Proof. apply recycling_run_cycle. Qed.

(** X11. Let [D] be a Tuesday on or after the epoch that carries the
    daylight-time [tzinfo], and [D'] the day one week later.  A run on [D']
    has the negation of the flag of a run on [D] when [D'] also carries the
    daylight-time [tzinfo]: in daylight time recycling alternates from one
    Tuesday to the next.  When [D'] carries the standard-time [tzinfo] its
    flag is false whatever the flag on [D]: the alternation stops where
    daylight time ends. *)
Theorem recycling_alternates_on_tuesdays (D D' : datetime) :
  weekday D = TUESDAY ->
  tz D = CDT ->
  toordinal RECYCLING_EPOCH <= toordinal D ->
  toordinal D' = toordinal D + 7 ->
  recycling (run D') =
  match tz D' with
  | CDT => negb (recycling (run D))
  | CST => false
  end.
Proof.
  intros Hw Hz He Hd'.
  destruct (tz D') eqn:Hz'; [apply recycling_standard_time, Hz' |].
  assert (ED : D' = add_days D 7)
    by (apply datetime_eq; [exact Hd' | cbn [add_days tz]; congruence]).
  subst D'. clear Hd' Hz'.
  assert (Hw7 : weekday (add_days D 7) = TUESDAY)
    by (rewrite weekday_add_days, Hw; reflexivity).
  pose proof (recycling_run_cycle D) as H0.
  pose proof (recycling_run_cycle (add_days D 7)) as H7.
  rewrite determine_tuesday, pickup_tuesday_adjust in H0, H7 by assumption.
  cbn [add_days toordinal tz] in H7.
  assert (Hmod : (toordinal D - toordinal RECYCLING_EPOCH) mod 7 = 0).
  { unfold weekday, TUESDAY in Hw.
    assert (Hepoch : (toordinal RECYCLING_EPOCH + 6) mod 7 = 1) by reflexivity.
    revert Hw Hepoch. generalize (toordinal RECYCLING_EPOCH) as e. intros e.
    euclid. }
  revert He Hmod H0 H7. generalize (toordinal RECYCLING_EPOCH) as e.
  intros e He Hmod H0 H7.
  assert (Hx : (toordinal D - e) mod 14 = 0 <-> (toordinal D + 7 - e) mod 14 <> 0)
    by euclid.
  destruct (recycling (run D)); destruct (recycling (run (add_days D 7)));
    cbn [negb]; try reflexivity; exfalso.
  - assert ((toordinal D - e) mod 14 = 0) by (apply H0; reflexivity).
    assert ((toordinal D + 7 - e) mod 14 = 0) by (apply H7; reflexivity).
    tauto.
  - assert ((toordinal D - e) mod 14 <> 0)
      by (intros H; assert (false = true) by (apply H0; auto); discriminate).
    assert ((toordinal D + 7 - e) mod 14 <> 0)
      by (intros H'; assert (false = true)
            by (apply H7; repeat split; [assumption | lia | assumption]);
          discriminate).
    tauto.
Qed.

Lemma recycling_alternates_on_tuesdays_witness :
  recycling (run (localize CDT 2021 3 23))
  = negb (recycling (run (localize CDT 2021 3 16))).
Proof.
  apply (recycling_alternates_on_tuesdays
           (localize CDT 2021 3 16) (localize CDT 2021 3 23)).
  - reflexivity.
  - reflexivity.
  - vm_compute. discriminate.
  - reflexivity.
Defined.

(** Across the end of daylight time in 2021: 2 November, off the cycle, and
    9 November, on it, both have the flag false. *)
Example recycling_november_2021 :
  recycling (run (localize CDT 2021 11 2)) = false /\
  recycling (run (localize CST 2021 11 9)) = false.
Proof. vm_compute. split; reflexivity. Qed.

(** X12. The cycle does not extend backwards: when the upcoming trash day
    falls before the recycling epoch the flag is false. *)
Theorem no_recycling_before_epoch (D : datetime) :
  toordinal (_determine_upcoming_trash_day D) < toordinal RECYCLING_EPOCH ->
  recycling (run D) = false.
Proof.
  intros Hlt. destruct (recycling (run D)) eqn:Hr; [| reflexivity].
  apply recycling_run_cycle in Hr as (_ & Hle & _).
  unfold pickup_tuesday in Hle.
  destruct (weekday _ =? TUESDAY); cbn [add_days toordinal] in Hle; lia.
Qed.

Lemma no_recycling_before_epoch_witness :
  recycling (run (localize CST 2021 3 2)) = false.
Proof.
  apply (no_recycling_before_epoch (localize CST 2021 3 2)).
  vm_compute. reflexivity.
Defined.

(** X13. A datetime that carries the standard-time [tzinfo] never matches a
    recycling day, since these keep the daylight-time [tzinfo] of the epoch:
    it is not flagged as a trash day, and a run on it has the flag false,
    also when its date is a whole number of fortnights after the epoch. *)
Theorem standard_time_never_recycles (D : datetime) :
  tz D = CST ->
  recycling (run D) = false /\
  forall TODAY : datetime, recycling (_render_params TODAY D) = false.
Proof.
  intros Hz. split; [apply recycling_standard_time, Hz |].
  intros TODAY. destruct (recycling _) eqn:Hr; [| reflexivity].
  apply recycling_true_iff, generate_recycling_days_tz in Hr. congruence.
Qed.

Lemma standard_time_never_recycles_witness :
  weekday (localize CST 2021 11 9) = TUESDAY /\
  (toordinal (localize CST 2021 11 9) - toordinal RECYCLING_EPOCH) mod 14 = 0 /\
  recycling (run (localize CST 2021 11 9)) = false /\
  forall TODAY : datetime,
    recycling (_render_params TODAY (localize CST 2021 11 9)) = false.
Proof.
  split; [reflexivity |]. split; [reflexivity |].
  apply (standard_time_never_recycles (localize CST 2021 11 9)). reflexivity.
Defined.

(** ** The readable date *)

Module ReadableFacts.

Import String.
Local Open Scope string_scope.

(** X14. The readable date of the upcoming trash day names a Tuesday, or
    else reads "Wednesday, December 26" or "Wednesday, January 02" followed
    by the year: a Wednesday is announced only for the day after an observed
    holiday. *)
Theorem readable_trash_day (D : datetime) :
  (weekday (_determine_upcoming_trash_day D) = TUESDAY /\
   prefix "Tuesday, " (trash_day_readable (_determine_upcoming_trash_day D)) = true) \/
  trash_day_readable (_determine_upcoming_trash_day D)
  = "Wednesday, December 26 " ++ Strftime.decimal (year (_determine_upcoming_trash_day D)) \/
  trash_day_readable (_determine_upcoming_trash_day D)
  = "Wednesday, January 02 " ++ Strftime.decimal (year (_determine_upcoming_trash_day D)).
Proof.
  destruct (determine_pickup_day D) as [[Hw Hh] | [Hw Hh]].
  - left. split; [assumption |].
    unfold trash_day_readable, Strftime.format_A_B_d_Y. rewrite Hw.
    change (Strftime.day_name TUESDAY) with "Tuesday".
    generalize (Strftime.month_name (month (_determine_upcoming_trash_day D))
                ++ " " ++ Strftime.two_digits (day (_determine_upcoming_trash_day D))
                ++ " " ++ Strftime.decimal (year (_determine_upcoming_trash_day D))).
    intros rest. destruct rest; reflexivity.
  - right.
    destruct (holiday_tomorrow _ Hh) as [Hm Hd].
    rewrite add_days_pred_succ in Hm, Hd.
    apply is_observed_holiday_iff in Hh.
    unfold trash_day_readable, Strftime.format_A_B_d_Y. rewrite Hw, Hm, Hd.
    destruct Hh as [Hh | Hh]; injection Hh as -> ->; [left | right]; reflexivity.
Qed.

End ReadableFacts.

(** ** The trash day as a function of the calendar date *)

(** The [tzinfo] of [TODAY] is carried along and plays no part in the
    date. *)
Lemma determine_retag (a : datetime) (z : tzinfo) :
  _determine_upcoming_trash_day (mkDatetime (toordinal a) z)
  = mkDatetime (toordinal (_determine_upcoming_trash_day a)) z.
Proof.
  unfold _determine_upcoming_trash_day, _holiday_adjust, _is_observed_holiday,
    rel.rsub, rel.radd, weekday, month, day, add_days.
  cbn [toordinal tz rel.rd_days rel.rd_weekday].
  repeat match goal with
         | |- context [if ?b then _ else _] => destruct b
         end; reflexivity.
Qed.

Lemma determine_same_date (a b : datetime) :
  toordinal a = toordinal b ->
  toordinal (_determine_upcoming_trash_day a)
  = toordinal (_determine_upcoming_trash_day b).
Proof.
  intros E. pose proof (determine_retag a (tz b)) as H.
  rewrite E in H. destruct b as [ob zb]. cbn [toordinal tz] in H.
  rewrite H. reflexivity.
Qed.

(** X15. The announcement never goes back: a later day has a trash day that
    is the same or later. *)
Theorem upcoming_trash_day_monotone (D D' : datetime) :
  toordinal D <= toordinal D' ->
  toordinal (_determine_upcoming_trash_day D)
  <= toordinal (_determine_upcoming_trash_day D').
Proof.
  intros Hd.
  destruct (Z.le_gt_cases (toordinal D') (toordinal (_determine_upcoming_trash_day D)))
    as [Hle | Hgt].
  - set (x := mkDatetime (toordinal D') (tz D)).
    rewrite (determine_same_date D' x) by reflexivity.
    rewrite (determine_stable D x) by (subst x; simpl; auto). lia.
  - pose proof (determine_ordinal D'). lia.
Qed.

Lemma upcoming_trash_day_monotone_witness :
  toordinal (_determine_upcoming_trash_day (localize CST 2024 12 24))
  <= toordinal (_determine_upcoming_trash_day (localize CST 2024 12 25)).
Proof.
  apply (upcoming_trash_day_monotone (localize CST 2024 12 24) (localize CST 2024 12 25)).
  vm_compute. discriminate.
Defined.

(** X16. Closed form.  Unless [D] is a makeup Wednesday, the upcoming trash
    day is the holiday-adjusted image of [D + ((TUESDAY - weekday D) mod 7)
    days]: today on a Tuesday, and 1, 6, 5, 4, 3, 2 days ahead from Monday,
    Wednesday, ..., Sunday. *)
Theorem upcoming_trash_day_closed_form (D : datetime) :
  ~ (weekday D = WEDNESDAY /\ _is_observed_holiday (add_days D (-1)) = true) ->
  _determine_upcoming_trash_day D
  = _holiday_adjust (add_days D ((TUESDAY - weekday D) mod 7)).
Proof.
  intros Hm.
  destruct (Z.eq_dec (weekday D) TUESDAY) as [Ht | Ht].
  - rewrite determine_tuesday by assumption. rewrite Ht, Z.sub_diag.
    change (0 mod 7) with 0. rewrite add_days_0. reflexivity.
  - rewrite determine_otherwise by assumption. f_equal.
    apply datetime_eq.
    + rewrite next_tuesday_ordinal. cbn [add_days toordinal].
      pose proof (weekday_range D). unfold TUESDAY in *.
      destruct (Z.ltb_spec (weekday D) 1); euclid.
    + destruct (next_tuesday_first D) as (_ & _ & -> & _). reflexivity.
Qed.

Lemma upcoming_trash_day_closed_form_witness :
  _determine_upcoming_trash_day (localize CST 2024 12 26)
  = _holiday_adjust
      (add_days (localize CST 2024 12 26)
                ((TUESDAY - weekday (localize CST 2024 12 26)) mod 7)).
Proof.
  apply (upcoming_trash_day_closed_form (localize CST 2024 12 26)).
  vm_compute. intros [H _]. discriminate H.
Defined.

(** X17. The countdown reaches 7 in one situation only: on a Wednesday that
    is not a makeup day and whose next Tuesday, six days ahead, is an
    observed holiday. *)
Theorem countdown_seven_iff (D : datetime) :
  countdown (run D) = 7 <->
  weekday D = WEDNESDAY /\
  _is_observed_holiday (add_days D (-1)) = false /\
  _is_observed_holiday (add_days D 6) = true.
Proof.
  rewrite countdown_run.
  pose proof (weekday_range D) as Hr.
  destruct (Z.eq_dec (weekday D) TUESDAY) as [Ht | Ht].
  { rewrite determine_tuesday by assumption.
    pose proof (holiday_adjust_ordinal D).
    unfold TUESDAY, WEDNESDAY in *. split; [lia | intros (Hw & _); lia]. }
  assert (Hn : toordinal (next_tuesday D) = toordinal D + 6 -> next_tuesday D = add_days D 6).
  { intros E. apply datetime_eq; [exact E |].
    destruct (next_tuesday_first D) as (_ & _ & -> & _). reflexivity. }
  pose proof (next_tuesday_ordinal D) as Ho.
  destruct (Z.eq_dec (weekday D) WEDNESDAY) as [Hw | Hw];
    [destruct (_is_observed_holiday (add_days D (-1))) eqn:Hy |].
  - rewrite determine_makeup by assumption.
    split; [lia | intros (_ & H & _); discriminate H].
  - rewrite determine_otherwise by (try assumption; intros [_ H]; congruence).
    rewrite Hn by (unfold TUESDAY, WEDNESDAY in *;
                   destruct (Z.ltb_spec (weekday D) 1); lia).
    unfold _holiday_adjust.
    destruct (_is_observed_holiday (add_days D 6)); cbn [add_days toordinal].
    + split; [auto | lia].
    + split; [lia | intros (_ & _ & H); discriminate H].
  - rewrite determine_otherwise by (try assumption; intros [H _]; congruence).
    pose proof (holiday_adjust_ordinal (next_tuesday D)).
    split; [| intros (H' & _); contradiction].
    unfold TUESDAY, WEDNESDAY in *.
    destruct (Z.ltb_spec (weekday D) 1); lia.
Qed.
